(** * pika-cli-client: the configuration store, its loaders and the
      publish / consume drivers, embedded from [pika_cli_client/config.py],
      [publisher.py] and [consumer.py]. *)

From Stdlib Require Import ZArith Ascii String List DecimalString Sorted.
From stdpp Require Import base option gmap strings list fin_maps.

Set Warnings "-register-all".
Local Open Scope string_scope.

(** ** Python values

    The values a YAML document, a command line or a [Config] can hold:
    [None], booleans, integers, strings, lists and dictionaries with
    string keys. *)

Inductive value : Type :=
  | VNone
  | VBool (b : bool)
  | VInt (z : Z)
  | VStr (s : string)
  | VList (l : list value)
  | VDict (d : gmap string value).

(** ** Exceptions and the monad of methods that mutate an object *)

(** The argument of [sys.exit] / [SystemExit]: a status or a message. *)
Inductive exit_arg : Type :=
  | ExitCode (n : Z)
  | ExitMsg (msg : string).

Inductive exn : Type :=
  | KeyError (msg : string)
  | TypeError
  | ValueError
  | AttributeError
  | YAMLError
  | IOError (msg : string)
  | SystemExit (arg : exit_arg).

Inductive result (A : Type) : Type :=
  | Ok (a : A)
  | Raise (e : exn).
Arguments Ok {A} a.
Arguments Raise {A} e.

(** A computation over a mutable object of type [S]: it returns a value
    or raises, and in both cases leaves the object in some state. *)
Definition M (S A : Type) : Type := S → result A * S.

#[global] Instance M_ret {S} : MRet (M S) := λ A a s, (Ok a, s).
#[global] Instance M_bind {S} : MBind (M S) := λ A B k m s,
  match m s with
  | (Ok a, s') => k a s'
  | (Raise e, s') => (Raise e, s')
  end.

Definition raise {S A} (e : exn) : M S A := λ s, (Raise e, s).
Definition get_state {S} : M S S := λ s, (Ok s, s).
Definition put_state {S} (s : S) : M S unit := λ _, (Ok tt, s).
Definition lift {S A} (r : result A) : M S A := λ s, (r, s).

(** [for x in l: body x] *)
Fixpoint for_each {S A} (l : list A) (body : A → M S unit) : M S unit :=
  match l with
  | [] => mret tt
  | x :: l' => body x;; for_each l' body
  end.

#[global] Instance result_ret : MRet result := λ A a, Ok a.
#[global] Instance result_bind : MBind result := λ A B k r,
  match r with
  | Ok a => k a
  | Raise e => Raise e
  end.

(** [str(e)] of an exception, as used in messages. *)
Definition exn_str (e : exn) : string :=
  match e with
  | KeyError msg => msg
  | TypeError => "TypeError"
  | ValueError => "ValueError"
  | AttributeError => "AttributeError"
  | YAMLError => "YAMLError"
  | IOError msg => msg
  | SystemExit (ExitMsg msg) => msg
  | SystemExit (ExitCode _) => "SystemExit"
  end.

(** ** The string and container operations of Python that the code uses *)

Module py.

(** [s.split(sep)] for a one-character separator. *)
Fixpoint split (sep : ascii) (s : string) : list string :=
  match s with
  | EmptyString => [EmptyString]
  | String c s' =>
      if Ascii.eqb c sep then EmptyString :: split sep s'
      else match split sep s' with
           | [] => [String c EmptyString]
           | w :: ws => String c w :: ws
           end
  end.

(** The characters [str.strip()] removes. *)
Definition isspace (c : ascii) : bool :=
  existsb (Ascii.eqb c)
    [" "%char; "009"%char; "010"%char; "011"%char; "012"%char; "013"%char].

Fixpoint lstrip (s : string) : string :=
  match s with
  | EmptyString => EmptyString
  | String c s' => if isspace c then lstrip s' else s
  end.

Fixpoint rstrip (s : string) : string :=
  match s with
  | EmptyString => EmptyString
  | String c s' =>
      match rstrip s' with
      | EmptyString => if isspace c then EmptyString else String c EmptyString
      | r => String c r
      end
  end.

Definition strip (s : string) : string := rstrip (lstrip s).

(** [fp.readline()] on a file positioned at its start: everything up to
    and including the first newline. *)
Fixpoint readline (s : string) : string :=
  match s with
  | EmptyString => EmptyString
  | String c s' =>
      if Ascii.eqb c "010"%char then String c EmptyString
      else String c (readline s')
  end.

(** Truth value of a string and of an optional string ([None] and the
    empty string are false). *)
Definition truthy (s : string) : bool :=
  match s with EmptyString => false | _ => true end.

Definition otruthy (o : option string) : bool :=
  match o with Some s => truthy s | None => false end.

(** [sorted(l)] on strings: insertion sort by the lexicographic order. *)
Fixpoint insert_sorted (x : string) (l : list string) : list string :=
  match l with
  | [] => [x]
  | y :: l' => if String.leb x y then x :: l else y :: insert_sorted x l'
  end.

Definition sorted (l : list string) : list string :=
  foldr insert_sorted [] l.

(** [t.get(p, dflt)]: only a dictionary has the method. *)
Definition get (t : value) (p : string) (dflt : value) : result value :=
  match t with
  | VDict d => Ok (default dflt (d !! p))
  | _ => Raise AttributeError
  end.

(** [x in t] for a string [x]: key membership in a dictionary, substring
    test in a string, element test in a list; the other values are not
    iterable. *)
Definition contains (x : string) (t : value) : result bool :=
  match t with
  | VDict d => Ok (bool_decide (is_Some (d !! x)))
  | VStr s => Ok (match String.index 0 x s with Some _ => true | None => false end)
  | VList l =>
      Ok (existsb (λ v, match v with VStr y => String.eqb x y | _ => false end) l)
  | VNone | VBool _ | VInt _ => Raise TypeError
  end.

(** [t[x]] for a string [x]. *)
Definition getitem (t : value) (x : string) : result value :=
  match t with
  | VDict d =>
      match d !! x with
      | Some v => Ok v
      | None => Raise (KeyError x)
      end
  | _ => Raise TypeError
  end.

End py.

(** ** More string methods, used where the module builds its tables *)

Module pystr.

(** [s.startswith(p)] *)
Definition startswith (p s : string) : bool := String.prefix p s.

(** [s.replace(old, new)] for a non-empty [old]: left to right, without
    overlap; [skip] counts the characters of a match still to be passed. *)
Fixpoint replace_go (old new : string) (skip : nat) (s : string) : string :=
  match s with
  | EmptyString => EmptyString
  | String c s' =>
      match skip with
      | S k => replace_go old new k s'
      | O =>
          if String.prefix old s
          then new ++ replace_go old new (String.length old - 1) s'
          else String c (replace_go old new 0 s')
      end
  end.

Definition replace (old new s : string) : string := replace_go old new 0 s.

Definition isupper (c : ascii) : bool :=
  (65 <=? N_of_ascii c)%N && (N_of_ascii c <=? 90)%N.

Definition lower_char (c : ascii) : ascii :=
  if isupper c then ascii_of_N (N_of_ascii c + 32) else c.

(** [s.lower()] on ASCII text. *)
Fixpoint lower (s : string) : string :=
  match s with
  | EmptyString => EmptyString
  | String c s' => String (lower_char c) (lower s')
  end.

Fixpoint has_upper (s : string) : bool :=
  match s with
  | EmptyString => false
  | String c s' => isupper c || has_upper s'
  end.

End pystr.

(** ** config.py *)

Module config.

(** The name [SSL_PROTOCOLS] gives to an attribute of [ssl], and the table
    itself as built from the attributes of [ssl] (name and value, in the
    order of [dir(ssl)]); in a [dict] built from pairs a later pair
    replaces an earlier one with the same key. *)
Definition protocol_name (attr : string) : string :=
  pystr.lower (pystr.replace "_" "." (pystr.replace "PROTOCOL_" "" attr)).

Definition SSL_PROTOCOLS_of (ssl_attrs : list (string * Z)) : gmap string Z :=
  foldl (λ m kv, <[protocol_name kv.1 := kv.2]> m) ∅
    (filter (λ kv, pystr.startswith "PROTOCOL_" kv.1 = true) ssl_attrs).

(** The file system as the code observes it: [os.path.isfile] and
    [open(..., 'r')]. *)
Inductive file : Type :=
  | NoFile
  | Unreadable (err : string)
  | File (content : string).

Record Config : Type := { _settings : gmap string value }.

(** The [argparse] namespace built by [make_config_argparser]. *)
Record Namespace : Type := {
  host : string;
  port : Z;
  vhost : string;
  ssl : bool;
  ssl_version : string;
  username : option string;
  password : option string;
  password_file : option string;
  log_level : string;
}.

(** [args.password = pw] *)
Definition with_password (a : Namespace) (pw : string) : Namespace :=
  {| host := host a; port := port a; vhost := vhost a; ssl := ssl a;
     ssl_version := ssl_version a; username := username a;
     password := Some pw; password_file := password_file a;
     log_level := log_level a |}.

Record PlainCredentials : Type := {
  cred_username : option string;
  cred_password : option string;
}.

Record ConnectionParameters : Type := {
  cp_host : string;
  cp_port : Z;
  virtual_host : string;
  cp_ssl : bool;
  ssl_options : option Z;
  credentials : option PlainCredentials;
}.

(** What [get_creds] acts on: the namespace it mutates and the number of
    times the terminal prompt was shown. *)
Record CredState : Type := {
  args : Namespace;
  prompts : nat;
}.

Section env.

(** [SSL_PROTOCOLS], which is read off the [ssl] module of the running
    interpreter: protocol name to protocol constant. *)
Variable SSL_PROTOCOLS : gmap string Z.

(** [DEFAULT_CONF_SYS], [DEFAULT_CONF_USR] and [os.path.expanduser], which
    depend on [sys.prefix] and on the home directory. *)
Variable DEFAULT_CONF_SYS : string.
Variable DEFAULT_CONF_USR : string.
Variable expanduser : string → string.

(** The file system, the YAML parser and the answer of the terminal to
    [getpass.getpass()]. *)
Variable fs : string → file.
Variable yaml_load : string → result value.
Variable getpass : result string.

(** [sorted(SSL_PROTOCOLS.keys())[-1]] *)
Definition ssl_version_default : string :=
  List.last (py.sorted (map_to_list SSL_PROTOCOLS).*1) "".

Definition DEFAULT_CONFIG : gmap string value :=
  list_to_map [
    ("auth.password", VNone);
    ("auth.username", VNone);
    ("conn.host", VStr "localhost");
    ("conn.port", VInt 5672);
    ("conn.vhost", VStr "/");
    ("ssl.ciphers", VList []);
    ("ssl.enable", VBool true);
    ("ssl.version", VStr ssl_version_default);
    ("logging.level", VStr "INFO")
  ].

(** [sorted(self._defaults)] *)
Definition sorted_defaults : list string :=
  py.sorted (map_to_list DEFAULT_CONFIG).*1.

(** *** class Config.  [self._defaults] is bound to [DEFAULT_CONFIG] in
    [__init__] and never rebound, so only [self._settings] is state. *)

Definition __getitem__ (item : string) : M Config value :=
  self ← get_state;
  match DEFAULT_CONFIG !! item with
  | None => raise (KeyError ("No setting " ++ item))
  | Some dflt => mret (default dflt (_settings self !! item))
  end.

Definition __setitem__ (item : string) (v : value) : M Config unit :=
  self ← get_state;
  match DEFAULT_CONFIG !! item with
  | None => raise (KeyError ("No setting " ++ item))
  | Some _ => put_state {| _settings := <[item := v]> (_settings self) |}
  end.

Definition __delitem__ (item : string) : M Config unit :=
  self ← get_state;
  match DEFAULT_CONFIG !! item with
  | None => raise (KeyError ("No setting " ++ item))
  | Some _ =>
      match _settings self !! item with
      | None => raise (KeyError (item ++ " not set"))
      | Some _ => put_state {| _settings := delete item (_settings self) |}
      end
  end.

Definition __iter__ : M Config (list string) := mret sorted_defaults.

Definition __len__ : M Config nat := mret (size DEFAULT_CONFIG).

(** [MutableMapping.update(other)] for a dictionary [other], given as its
    items in iteration order: [for key in other: self[key] = other[key]]. *)
Definition update (other : list (string * value)) : M Config unit :=
  for_each other (λ kv, __setitem__ kv.1 kv.2).

(** [Config(other)]: the object exists only if [__init__] returns. *)
Definition __init__ (other : list (string * value)) : result Config :=
  match update other {| _settings := ∅ |} with
  | (Ok _, self) => Ok self
  | (Raise e, _) => Raise e
  end.

(** [for p in parts[:-1]: t = t.get(p, dict())] *)
Fixpoint walk (path : list string) (t : value) : result value :=
  match path with
  | [] => Ok t
  | p :: path' => t' ← py.get t p (VDict ∅); walk path' t'
  end.

Definition load_key (dict_value : value) (key : string) : M Config unit :=
  let parts := py.split "." key in
  t ← lift (walk (List.removelast parts) dict_value);
  found ← lift (py.contains (List.last parts "") t);
  if (found : bool) then
    v ← lift (py.getitem t (List.last parts ""));
    __setitem__ key v
  else mret tt.

Definition load_dict (dict_value : value) : M Config unit :=
  for_each sorted_defaults (load_key dict_value).

(** [for p in parts[:-1]: t = t.setdefault(p, OrderedDict())] followed by
    [t[leaf] = v], on the dictionary the path starts from.  The nested
    dictionaries are shared objects, so the assignment shows in [d]. *)
Fixpoint store_at (path : list string) (leaf : string) (v : value)
    (d : gmap string value) : result (gmap string value) :=
  match path with
  | [] => Ok (<[leaf := v]> d)
  | p :: path' =>
      match default (VDict ∅) (d !! p) with
      | VDict sub =>
          sub' ← store_at path' leaf v sub;
          Ok (<[p := VDict sub']> d)
      | _ => Raise AttributeError
      end
  end.

Fixpoint dump_keys (keys : list string) (dump : gmap string value)
    : M Config (gmap string value) :=
  match keys with
  | [] => mret dump
  | key :: keys' =>
      let parts := py.split "." key in
      v ← __getitem__ key;
      dump' ← lift (store_at (List.removelast parts) (List.last parts "") v dump);
      dump_keys keys' dump'
  end.

Definition dump_dict : M Config value :=
  dump ← dump_keys sorted_defaults ∅;
  mret (VDict dump).

(** *** class IniConfig.  [self.config] is bound to [None] in [__init__]
    and nowhere else; the parser object it is used as would map a section
    to its options. *)

Inductive pytype : Type := Tstr | Tint | Tbool.

Definition VALUES : list ((string * string) * (value * pytype)) := [
  (("auth", "password"), (VNone, Tstr));
  (("auth", "username"), (VNone, Tstr));
  (("conn", "host"), (VStr "localhost", Tstr));
  (("conn", "port"), (VInt 5672, Tint));
  (("conn", "vhost"), (VStr "/", Tstr));
  (("ssl", "ciphers"), (VStr "", Tstr));
  (("ssl", "enable"), (VBool true, Tbool));
  (("ssl", "version"), (VStr ssl_version_default, Tstr));
  (("logging", "level"), (VStr "INFO", Tstr))
].

Record IniConfig : Type := {
  ini_config : option (gmap string (gmap string value));
}.

(** One round of the loop of [IniConfig.__init__]; every use of
    [self.config] is an attribute access on it. *)
Definition ini_set_default (k : (string * string) * (value * pytype))
    : M IniConfig unit :=
  self ← get_state;
  match ini_config self with
  | None => raise AttributeError
  | Some parser =>
      let parser1 :=
        match parser !! k.1.1 with
        | Some _ => parser
        | None => <[k.1.1 := ∅]> parser
        end in
      put_state
        {| ini_config :=
             Some (<[k.1.1 := <[k.1.2 := k.2.1]> (default ∅ (parser1 !! k.1.1))]>
                     parser1) |}
  end.

Definition IniConfig__init__ : result IniConfig :=
  match for_each VALUES ini_set_default {| ini_config := None |} with
  | (Ok _, self) => Ok self
  | (Raise e, _) => Raise e
  end.

(** *** Vocabulary for statements about the schema and about sources

    The keys of [DEFAULT_CONFIG] written out in sorted order. *)

Definition schema_keys : list string :=
  ["auth.password"; "auth.username"; "conn.host"; "conn.port"; "conn.vhost";
   "logging.level"; "ssl.ciphers"; "ssl.enable"; "ssl.version"].

(** The leaf a nested mapping holds at a dotted key, and the check that a
    source is a mapping whose entry for the section of every schema key,
    when present, is a mapping too. *)

Fixpoint lookup_path (path : list string) (t : value) : option value :=
  match path with
  | [] => Some t
  | p :: path' =>
      match t with
      | VDict d => d !! p ≫= lookup_path path'
      | _ => None
      end
  end.

Definition leaf (src : value) (key : string) : option value :=
  lookup_path (py.split "." key) src.

Definition section_ok (d : gmap string value) (key : string) : bool :=
  match d !! hd "" (py.split "." key) with
  | Some (VDict _) | None => true
  | Some _ => false
  end.

Definition is_nested_mapping (src : value) : bool :=
  match src with
  | VDict d => forallb (section_ok d) sorted_defaults
  | _ => false
  end.

(** The nested mapping that holds [get k] at every schema key [k]. *)
Definition nested_of (get : string → value) : value :=
  VDict {[
    "auth" := VDict {[ "password" := get "auth.password";
                       "username" := get "auth.username" ]};
    "conn" := VDict {[ "host" := get "conn.host";
                       "port" := get "conn.port";
                       "vhost" := get "conn.vhost" ]};
    "logging" := VDict {[ "level" := get "logging.level" ]};
    "ssl" := VDict {[ "ciphers" := get "ssl.ciphers";
                      "enable" := get "ssl.enable";
                      "version" := get "ssl.version" ]}
  ]}.

(** What a key reads as in a store ([None] standing in where the read
    raises). *)
Definition read (s : Config) (k : string) : value :=
  match (__getitem__ k s).1 with
  | Ok v => v
  | Raise _ => VNone
  end.

(** Strictly ascending in the order [sorted] uses. *)
Fixpoint ascending (l : list string) : bool :=
  match l with
  | [] => true
  | x :: l' =>
      match l' with
      | [] => true
      | y :: _ => String.ltb x y && ascending l'
      end
  end.

(** Only schema keys have been set. *)
Definition settings_in_schema (s : Config) : Prop :=
  ∀ k, is_Some (_settings s !! k) → k ∈ schema_keys.

(** What [load_dict] needs of the entry a mapping has for the section of a
    schema key: no entry, a mapping, or a string or list in which the
    option name is not found. *)
Definition loadable (d : gmap string value) (key : string) : bool :=
  let parts := py.split "." key in
  match d !! hd "" parts with
  | None | Some (VDict _) => true
  | Some (VStr s) =>
      match String.index 0 (List.last parts "") s with
      | Some _ => false
      | None => true
      end
  | Some (VList l) =>
      negb (existsb (λ v, match v with
                          | VStr y => String.eqb (List.last parts "") y
                          | _ => false
                          end) l)
  | Some _ => false
  end.

(** Whether a character occurs in a string, and whether a newline occurs
    in it at most as its last character. *)
Fixpoint has_char (c : ascii) (s : string) : bool :=
  match s with
  | EmptyString => false
  | String c' s' => Ascii.eqb c' c || has_char c s'
  end.

Fixpoint nl_only_last (s : string) : bool :=
  match s with
  | EmptyString => true
  | String c s' =>
      match s' with
      | EmptyString => true
      | _ => negb (Ascii.eqb c "010") && nl_only_last s'
      end
  end.

(** The password file sets no password: none was named, or the first line
    of the named file is blank. *)
Definition no_file_password (a : Namespace) : Prop :=
  py.otruthy (password_file a) = false ∨
  ∃ path content,
    password_file a = Some path ∧ fs path = File content ∧
    py.truthy (py.strip (py.readline content)) = false.

(** *** The module-level functions *)

Definition isfile (path : string) : bool :=
  match fs path with NoFile => false | _ => true end.

(** [open(path, 'r')] followed by reading: the content, or [IOError]. *)
Definition open (path : string) : result string :=
  match fs path with
  | File content => Ok content
  | Unreadable err => Raise (IOError err)
  | NoFile => Raise (IOError "No such file or directory")
  end.

Definition read_config (filename : string) : result value :=
  if py.truthy filename && isfile filename then
    content ← open filename;
    settings ← yaml_load content;
    match settings with
    | VDict _ => Ok settings
    | _ => Ok (VDict ∅)
    end
  else Ok (VDict ∅).

(** What one configuration path contributes: the mapping read from it,
    or the empty mapping when there is no such file. *)
Definition layer (path : string) : result value :=
  if isfile path then read_config path else Ok (VDict ∅).

Definition config_paths (ignore_sys ignore_user : bool)
    (custom : option string) : list string :=
  (if ignore_sys then [] else [DEFAULT_CONF_SYS]) ++
  (if ignore_user then [] else [DEFAULT_CONF_USR]) ++
  (match custom with Some c => [expanduser c] | None => [] end).

Definition load_path (path : string) : M Config unit :=
  if isfile path then
    settings ← lift (read_config path);
    load_dict settings
  else mret tt.

Definition get_config (ignore_sys ignore_user : bool)
    (custom : option string) : result Config :=
  config ← __init__ [];
  match for_each (config_paths ignore_sys ignore_user custom) load_path config with
  | (Ok _, config') => Ok config'
  | (Raise e, _) => Raise e
  end.

(** [try: body except Exception as e: handler e].  [SystemExit] is not an
    [Exception] and passes through. *)
Definition try_except {S A} (body : M S A) (handler : exn → M S A) : M S A :=
  λ s, match body s with
       | (Raise (SystemExit a), s') => (Raise (SystemExit a), s')
       | (Raise e, s') => handler e s'
       | r => r
       end.

Definition set_password (pw : string) : M CredState unit :=
  st ← get_state;
  put_state {| args := with_password (args st) pw; prompts := prompts st |}.

(** [getpass.getpass()]: the prompt is shown, then the terminal answers. *)
Definition call_getpass : M CredState string :=
  st ← get_state;
  put_state {| args := args st; prompts := S (prompts st) |};;
  lift getpass.

Definition get_creds : M CredState (option PlainCredentials) :=
  st ← get_state;
  (if py.otruthy (password_file (args st)) then
     try_except
       (content ← lift (open (default "" (password_file (args st))));
        let passwd := py.readline content in
        if py.truthy (py.strip passwd) then set_password (py.strip passwd)
        else mret tt)
       (λ e, raise (SystemExit
                      (ExitMsg ("Unable to open password file: " ++ exn_str e))))
   else mret tt);;
  st ← get_state;
  (if py.otruthy (username (args st)) && negb (py.otruthy (password (args st)))
   then
     try_except
       (pw ← call_getpass; set_password pw)
       (λ e, raise (SystemExit (ExitMsg ("Prompt terminated: " ++ exn_str e))))
   else mret tt);;
  st ← get_state;
  if py.otruthy (username (args st)) || py.otruthy (password (args st)) then
    mret (Some {| cred_username := username (args st);
                  cred_password := password (args st) |})
  else mret None.

Definition get_conn : M CredState ConnectionParameters :=
  creds ← get_creds;
  st ← get_state;
  ssl_opts ←
    (if py.truthy (ssl_version (args st)) then
       match SSL_PROTOCOLS !! ssl_version (args st) with
       | Some proto => mret (Some proto)
       | None => raise (KeyError (ssl_version (args st)))
       end
     else mret None);
  mret {| cp_host := host (args st); cp_port := port (args st);
          virtual_host := vhost (args st); cp_ssl := ssl (args st);
          ssl_options := ssl_opts; credentials := creds |}.

End env.
End config.

(** ** What a process shows to the outside *)

Inductive event : Type :=
  | Print (line : string)
  | Log (level msg : string)
  | BasicAck (delivery_tag : Z).

Definition emit (e : event) : M (list event) unit :=
  λ out, (Ok tt, (out ++ [e])%list).

(** [str(n)] for an integer. *)
Definition str_int (n : Z) : string := NilZero.string_of_int (Z.to_int n).

(** Run a computation on an object of its own, keeping only what it
    returns or raises. *)
Definition run_on {S T A} (m : M T A) (t : T) : M S A := λ s, ((m t).1, s).

(** The exit status of the interpreter when the script's [main()] has
    returned or raised. *)
Definition exit_status (r : result unit) : Z :=
  match r with
  | Ok _ => 0
  | Raise (SystemExit (ExitCode n)) => n
  | Raise _ => 1
  end.

(** ** publisher.py *)

Module publisher.

(** [type(frame.method)] with the delivery tag it carries. *)
Inductive method : Type :=
  | SelectOk
  | Nack (delivery_tag : Z)
  | Ack (delivery_tag : Z)
  | OtherMethod.

Definition confirm_callback (frame_method : method) : M (list event) unit :=
  match frame_method with
  | SelectOk => emit (Print "The channel is now in confirm mode")
  | Nack tag =>
      emit (Print ("Message " ++ str_int tag ++ " lost!"));;
      raise (SystemExit (ExitCode 1))
  | Ack tag =>
      emit (Print ("Message " ++ str_int tag ++ " delivered!"));;
      raise (SystemExit (ExitCode 0))
  | OtherMethod => mret tt
  end.

Section env.

Variable SSL_PROTOCOLS : gmap string Z.
Variable DEFAULT_CONF_SYS : string.
Variable DEFAULT_CONF_USR : string.
Variable expanduser : string → string.
Variable fs : string → config.file.
Variable yaml_load : string → result value.
Variable getpass : result string.

(** [make_parser(conf).parse_args(args)]: the namespace, or the
    [SystemExit] of [argparse]. *)
Variable parse_args : config.Config → result config.Namespace.

(** [config.setup_logging(args)] and [repr(conf)]. *)
Variable setup_logging : config.Namespace → result unit.
Variable repr : config.Config → string.

(** The broker as seen through the library: opening the connection and
    its channel, what [channel.basic_publish] returns or raises on the
    message read from [args.message_file], and closing the connection and
    the message file. *)
Variable BlockingConnection : config.ConnectionParameters → result unit.
Variable basic_publish : result bool.
Variable close : result unit.

Definition main : M (list event) unit :=
  conf ← lift (config.get_config SSL_PROTOCOLS DEFAULT_CONF_SYS
                 DEFAULT_CONF_USR expanduser fs yaml_load
                 false false (Some "config.yml"));
  args ← lift (parse_args conf);
  lift (setup_logging args);;
  emit (Log "DEBUG" ("config: " ++ repr conf));;
  params ← run_on (config.get_conn SSL_PROTOCOLS fs getpass)
             {| config.args := args; config.prompts := 0 |};
  lift (BlockingConnection params);;
  emit (Print "Sending message...");;
  result ← lift basic_publish;
  lift close;;
  if (result : bool) then emit (Log "INFO" "Published message")
  else emit (Log "ERROR" "Unable to publish message").

(** [if __name__ == '__main__': main()] *)
Definition run : Z * list event :=
  let r := main [] in (exit_status r.1, r.2).

End env.
End publisher.

(** ** consumer.py *)

Module consumer.

(** The [json] module: [json.loads] and
    [json.dumps(_, indent=4, sort_keys=True)] over its parsed values. *)
Record json_module (J : Type) : Type := {
  loads : string → result J;
  dumps : J → result string;
}.
Arguments loads {J} _ _.
Arguments dumps {J} _ _.

Record Method : Type := {
  consumer_tag : string;
  exchange : string;
  routing_key : string;
  delivery_tag : Z;
  redelivered : bool;
}.

Record Header : Type := {
  delivery_mode : option Z;
  content_type : option string;
}.

Definition str_bool (b : bool) : string := if b then "True" else "False".

Definition str_opt {A} (f : A → string) (o : option A) : string :=
  match o with Some a => f a | None => "None" end.

(** [' ' * indent] *)
Fixpoint spaces (indent : nat) : string :=
  match indent with
  | O => ""
  | S n => String " " (spaces n)
  end.

Definition block_format (strblock prefix header : string) (indent : nat)
    : string :=
  let fmt_line line := spaces indent ++ " " ++ prefix ++ " " ++ line in
  let fmt_header line :=
    if py.truthy line then spaces indent ++ line ++ String "010" "" else "" in
  fmt_header header ++
  String.concat (String "010" "") (map fmt_line (py.split "010" strblock)) ++
  String "010" "".

Section env.

Context {J : Type}.

(** [None] when [import json] raises [ImportError]. *)
Variable json : option (json_module J).

(** A bare [except:] catches every exception. *)
Definition pretty_json (body : string) : result string :=
  match json with
  | Some j =>
      match (parsed ← loads j body; dumps j parsed) with
      | Ok s => Ok s
      | Raise _ => Ok body
      end
  | None => Ok body
  end.

Definition metadata (m : Method) (h : Header) : string :=
  String.concat (String "010" "") [
    "consumer: " ++ consumer_tag m;
    "exchange: " ++ exchange m;
    "routing-key: " ++ routing_key m;
    "delivery-tag: " ++ str_int (delivery_tag m);
    "redelivered: " ++ str_bool (redelivered m);
    "delivery-mode: " ++ str_opt str_int (delivery_mode h);
    "content-type: " ++ str_opt id (content_type h)
  ].

Definition consumer_callback (m : Method) (h : Header) (body : string)
    : M (list event) unit :=
  emit (Log "DEBUG" "New message");;
  emit (Print (block_format (metadata m h) ">" "Metadata" 2));;
  body ←
    (if bool_decide (content_type h = Some "application/json")
     then lift (pretty_json body)
     else mret body);
  emit (Print (block_format body ">>" "Body" 2));;
  emit (BasicAck (delivery_tag m)).

End env.
End consumer.

(** ** A sample environment for the examples

    The protocol table of a CPython 2.7 interpreter and the store a bare
    [Config()] call returns. *)

Definition sample_protocols : gmap string Z :=
  list_to_map [("sslv23", 2%Z); ("sslv3", 1%Z); ("tlsv1", 3%Z);
               ("tlsv1.1", 4%Z); ("tlsv1.2", 5%Z)].

Definition fresh : config.Config := {| config._settings := ∅ |}.

(** Two sources: [{conn: {host: a, port: 1}}] and [{conn: {host: b}}]. *)
Definition sample_A : value :=
  VDict {[ "conn" := VDict {[ "host" := VStr "a"; "port" := VInt 1 ]} ]}.

Definition sample_B : value :=
  VDict {[ "conn" := VDict {[ "host" := VStr "b" ]} ]}.

(** The default paths of an installation under [/usr] for a user [u], a
    file system whose only file is an unparseable [config.yml], and a
    parser that rejects it. *)
Definition sample_sys : string := "/usr/etc/pika-cli-config.yml".
Definition sample_usr : string := "/home/u/.config/pika-cli-config.yml".

Definition broken_fs (path : string) : config.file :=
  if String.eqb path "config.yml" then config.File "conn: [" else config.NoFile.

Definition strict_yaml (content : string) : result value :=
  if String.eqb content "conn: [" then Raise YAMLError else Ok VNone.

(** The namespace of [--username alice --password-file pw.txt] over the
    default configuration, a password file with one line, one whose first
    line is blank, and a terminal where [typed] is entered. *)
Definition alice_args : config.Namespace :=
  {| config.host := "localhost"; config.port := 5672; config.vhost := "/";
     config.ssl := true; config.ssl_version := "tlsv1.2";
     config.username := Some "alice"; config.password := None;
     config.password_file := Some "pw.txt"; config.log_level := "INFO" |}.

Definition nl : string := String "010" "".

Definition topsecret_fs (path : string) : config.file :=
  if String.eqb path "pw.txt" then config.File ("topsecret" ++ nl)
  else config.NoFile.

Definition blank_first_fs (path : string) : config.file :=
  if String.eqb path "pw.txt" then config.File (nl ++ "secret" ++ nl)
  else config.NoFile.

Definition typed : result string := Ok "typed".

(** A run of the publisher with no configuration files and no credentials,
    against a broker that accepts the connection. *)
Definition anon_args : config.Namespace :=
  {| config.host := "localhost"; config.port := 5672; config.vhost := "/";
     config.ssl := true; config.ssl_version := "tlsv1.2";
     config.username := None; config.password := None;
     config.password_file := None; config.log_level := "INFO" |}.

Definition no_files (path : string) : config.file := config.NoFile.

Definition accepting_broker (params : config.ConnectionParameters)
    : result unit := Ok tt.

Definition logging_ok (args : config.Namespace) : result unit := Ok tt.

Definition repr_opaque (conf : config.Config) : string := "Config({...})".

(** A store in which [conn.host] has been set. *)
Definition host_set : config.Config :=
  {| config._settings := {[ "conn.host" := VStr "mq" ]} |}.

(** A [json] module cut down to the one document [{}]. *)
Definition tiny_json : consumer.json_module unit :=
  {| consumer.loads := λ body,
       if String.eqb body "{}" then Ok tt else Raise ValueError;
     consumer.dumps := λ _, Ok "{}" |}.

Definition sample_method : consumer.Method :=
  {| consumer.consumer_tag := "amqp_test"; consumer.exchange := "amqp_exchange";
     consumer.routing_key := "amqp_key"; consumer.delivery_tag := 7;
     consumer.redelivered := false |}.

Definition text_header : consumer.Header :=
  {| consumer.delivery_mode := Some 2%Z;
     consumer.content_type := Some "text/plain" |}.

(** Three configuration files, one per layer, as YAML text and as what the
    parser makes of them, and a named file that cannot be opened. *)
Definition layered_fs (path : string) : config.file :=
  if String.eqb path sample_sys then config.File "conn: {host: a, port: 1}"
  else if String.eqb path sample_usr then config.File "conn: {host: b}"
  else if String.eqb path "config.yml" then config.File "conn: {vhost: /c}"
  else config.NoFile.

Definition sample_C : value :=
  VDict {[ "conn" := VDict {[ "vhost" := VStr "/c" ]} ]}.

Definition layered_yaml (content : string) : result value :=
  if String.eqb content "conn: {host: a, port: 1}" then Ok sample_A
  else if String.eqb content "conn: {host: b}" then Ok sample_B
  else if String.eqb content "conn: {vhost: /c}" then Ok sample_C
  else Raise YAMLError.

Definition locked_fs (path : string) : config.file :=
  if String.eqb path "config.yml" then config.Unreadable "Permission denied"
  else config.NoFile.

(** [sample_B] with a section the schema does not know. *)
Definition sample_B_extra : value :=
  VDict {[ "conn" := VDict {[ "host" := VStr "b" ]};
           "extra" := VDict {[ "x" := VInt 1 ]} ]}.

(** Some attributes of the [ssl] module of CPython 2.7. *)
Definition sample_ssl_attrs : list (string * Z) :=
  [("CERT_NONE", 0%Z); ("OPENSSL_VERSION_NUMBER", 268443839%Z);
   ("PROTOCOL_SSLv23", 2%Z); ("PROTOCOL_SSLv3", 1%Z); ("PROTOCOL_TLSv1", 3%Z);
   ("PROTOCOL_TLSv1_1", 4%Z); ("PROTOCOL_TLSv1_2", 5%Z)].

(** * Properties *)

(** ** The monad *)

Lemma for_each_app {S A} (l1 l2 : list A) (body : A → M S unit) (s : S) :
  for_each (l1 ++ l2) body s =
  match for_each l1 body s with
  | (Ok _, s') => for_each l2 body s'
  | (Raise e, s') => (Raise e, s')
  end.
Proof.
  revert s. induction l1 as [|x l1 IH]; intros s; simpl.
  - reflexivity.
  - unfold mbind, M_bind. destruct (body x s) as [[[]|e] s']; [apply IH|reflexivity].
Qed.

(** ** config.py: the schema *)

Section config_facts.

Variable SSL_PROTOCOLS : gmap string Z.

#[local] Abbreviation DEFAULT_CONFIG := (config.DEFAULT_CONFIG SSL_PROTOCOLS).
#[local] Abbreviation sorted_defaults := (config.sorted_defaults SSL_PROTOCOLS).
#[local] Abbreviation __getitem__ := (config.__getitem__ SSL_PROTOCOLS).
#[local] Abbreviation __setitem__ := (config.__setitem__ SSL_PROTOCOLS).
#[local] Abbreviation __delitem__ := (config.__delitem__ SSL_PROTOCOLS).
#[local] Abbreviation __len__ := (config.__len__ SSL_PROTOCOLS).
#[local] Abbreviation __init__ := (config.__init__ SSL_PROTOCOLS).
#[local] Abbreviation load_key := (config.load_key SSL_PROTOCOLS).
#[local] Abbreviation load_dict := (config.load_dict SSL_PROTOCOLS).
#[local] Abbreviation dump_dict := (config.dump_dict SSL_PROTOCOLS).
#[local] Abbreviation is_nested_mapping := (config.is_nested_mapping SSL_PROTOCOLS).

Lemma sorted_defaults_eq : sorted_defaults = config.schema_keys.
Proof. vm_compute. reflexivity. Qed.

Lemma schema_key_elem (k : string) :
  is_Some (DEFAULT_CONFIG !! k) ↔ k ∈ config.schema_keys.
Proof.
  split.
  - intros [d Hd]. apply elem_of_list_to_map_2 in Hd.
    apply (list_elem_of_fmap_2 fst) in Hd. simpl in Hd.
    repeat (apply elem_of_cons in Hd as [->|Hd]; [repeat constructor|]).
    by apply elem_of_nil in Hd.
  - intros Hk. unfold config.schema_keys in Hk.
    repeat (apply elem_of_cons in Hk as [->|Hk]; [eexists; vm_compute; reflexivity|]).
    by apply elem_of_nil in Hk.
Qed.

Lemma schema_key_None (k : string) :
  k ∉ config.schema_keys → DEFAULT_CONFIG !! k = None.
Proof.
  intros Hk. destruct (DEFAULT_CONFIG !! k) eqn:E; [|reflexivity].
  exfalso. apply Hk, schema_key_elem. by eexists.
Qed.

(** ** config.py: the methods of [Config] *)

Ltac run_M :=
  unfold config.__getitem__, config.__setitem__, config.__delitem__,
    config.__len__, mbind, M_bind, mret, M_ret, get_state, put_state,
    raise, lift; simpl.

Lemma getitem_schema k d (s : config.Config) :
  DEFAULT_CONFIG !! k = Some d →
  __getitem__ k s = (Ok (default d (config._settings s !! k)), s).
Proof. intros H. run_M. by rewrite H. Qed.

Lemma setitem_schema k v (s : config.Config) :
  is_Some (DEFAULT_CONFIG !! k) →
  __setitem__ k v s =
  (Ok tt, {| config._settings := <[k := v]> (config._settings s) |}).
Proof. intros [d H]. run_M. by rewrite H. Qed.

Lemma getitem_unknown k (s : config.Config) :
  DEFAULT_CONFIG !! k = None →
  __getitem__ k s = (Raise (KeyError ("No setting " ++ k)), s).
Proof. intros H. run_M. by rewrite H. Qed.

Lemma setitem_unknown k v (s : config.Config) :
  DEFAULT_CONFIG !! k = None →
  __setitem__ k v s = (Raise (KeyError ("No setting " ++ k)), s).
Proof. intros H. run_M. by rewrite H. Qed.

Lemma delitem_unknown k (s : config.Config) :
  DEFAULT_CONFIG !! k = None →
  __delitem__ k s = (Raise (KeyError ("No setting " ++ k)), s).
Proof. intros H. run_M. by rewrite H. Qed.

(** C6: for a key outside the closed schema, get, set and delete each
    raise [KeyError] ("No setting <key>"), and the store is left exactly
    as it was. *)
Theorem unknown_key_raises_KeyError (k : string) (v : value)
    (s : config.Config) :
  k ∉ config.schema_keys →
  __getitem__ k s = (Raise (KeyError ("No setting " ++ k)), s) ∧
  __setitem__ k v s = (Raise (KeyError ("No setting " ++ k)), s) ∧
  __delitem__ k s = (Raise (KeyError ("No setting " ++ k)), s).
Proof.
  intros Hk%schema_key_None.
  auto using getitem_unknown, setitem_unknown, delitem_unknown.
Qed.

Lemma delitem_set k v (s : config.Config) :
  is_Some (DEFAULT_CONFIG !! k) →
  config._settings s !! k = Some v →
  __delitem__ k s =
  (Ok tt, {| config._settings := delete k (config._settings s) |}).
Proof. intros [d H] Hv. run_M. by rewrite H, Hv. Qed.

Lemma delitem_unset k (s : config.Config) :
  is_Some (DEFAULT_CONFIG !! k) →
  config._settings s !! k = None →
  __delitem__ k s = (Raise (KeyError (k ++ " not set")), s).
Proof. intros [d H] Hv. run_M. by rewrite H, Hv. Qed.

(** C2, as the code has it: deleting a schema key that has been set
    succeeds and the key then reads as its schema default; deleting a
    schema key that has not been set raises [KeyError] ("<key> not set")
    and leaves the store as it was, where the key already reads as its
    default; and [len] is 9 before and after any set or delete. *)
Theorem delete_set_key_resets_to_default (k : string) (d : value)
    (s : config.Config) :
  DEFAULT_CONFIG !! k = Some d →
  (∀ v, config._settings s !! k = Some v →
     ∃ s', __delitem__ k s = (Ok tt, s') ∧ __getitem__ k s' = (Ok d, s')) ∧
  (config._settings s !! k = None →
     __delitem__ k s = (Raise (KeyError (k ++ " not set")), s) ∧
     __getitem__ k s = (Ok d, s)) ∧
  (∀ k' v',
     (__len__ s).1 = Ok 9 ∧
     (__len__ (__setitem__ k' v' s).2).1 = Ok 9 ∧
     (__len__ (__delitem__ k' s).2).1 = Ok 9).
Proof.
  intros Hd. split; [|split].
  - intros v Hv. eexists. split.
    + apply (delitem_set k v); [by eexists|exact Hv].
    + rewrite (getitem_schema k d) by exact Hd. simpl.
      by rewrite lookup_delete_eq.
  - intros Hv. split.
    + apply delitem_unset; [by eexists|exact Hv].
    + rewrite (getitem_schema k d) by exact Hd. by rewrite Hv.
  - intros k' v'. repeat split; vm_compute; reflexivity.
Qed.

(** C7, as the code has it: for a schema key, [Config.__setitem__] takes
    any raw value, raises nothing and stores the value as it is, so the
    key reads back as that very value. *)
Theorem setitem_stores_raw_value (k : string) (v : value)
    (s : config.Config) :
  k ∈ config.schema_keys →
  ∃ s', __setitem__ k v s = (Ok tt, s') ∧ __getitem__ k s' = (Ok v, s').
Proof.
  intros [d Hd]%schema_key_elem. eexists. split.
  - apply setitem_schema. by eexists.
  - rewrite (getitem_schema k d) by exact Hd. simpl.
    by rewrite lookup_insert_eq.
Qed.

(** [IniConfig()] cannot be built: the first round of the loop in its
    [__init__] calls a method on [None]. *)
Lemma IniConfig_init_raises :
  config.IniConfig__init__ SSL_PROTOCOLS = Raise AttributeError.
Proof. reflexivity. Qed.

Lemma update_unknown_key (other : list (string * value)) (s : config.Config) :
  (∃ kv, kv ∈ other ∧ kv.1 ∉ config.schema_keys) →
  ∃ k s', k ∈ other.*1 ∧ (k ∉ config.schema_keys) ∧
    config.update SSL_PROTOCOLS other s =
    (Raise (KeyError ("No setting " ++ k)), s').
Proof.
  revert s. induction other as [|[k v] other IH]; intros s [kv [Hin Hkv]].
  - by apply elem_of_nil in Hin.
  - unfold config.update. simpl. unfold mbind at 1, M_bind at 1.
    destruct (decide (k ∈ config.schema_keys)) as [Hk|Hk].
    + rewrite setitem_schema by by apply schema_key_elem.
      apply elem_of_cons in Hin as [->|Hin]; [done|].
      destruct (IH {| config._settings := <[k:=v]> (config._settings s) |})
        as (k' & s' & Hk' & Hno & Hup); [by exists kv|].
      exists k', s'. split; [by right|]. split; [done|]. exact Hup.
    + rewrite setitem_unknown by by apply schema_key_None.
      exists k, s. split; [by left|]. done.
Qed.

(** C9: [Config(other)] passes every entry of [other] to [__setitem__],
    so when [other] has a key outside the closed schema the constructor
    raises [KeyError] naming such a key and no store is built. *)
Theorem init_rejects_unknown_key (other : list (string * value)) :
  (∃ kv, kv ∈ other ∧ kv.1 ∉ config.schema_keys) →
  __init__ other =
    (match for_each other (λ kv, __setitem__ kv.1 kv.2)
             {| config._settings := ∅ |} with
     | (Ok _, self) => Ok self
     | (Raise e, _) => Raise e
     end) ∧
  ∃ k, k ∈ other.*1 ∧ (k ∉ config.schema_keys) ∧
    __init__ other = Raise (KeyError ("No setting " ++ k)).
Proof.
  intros H. split; [reflexivity|].
  destruct (update_unknown_key other {| config._settings := ∅ |} H)
    as (k & s' & Hin & Hk & Hup).
  exists k. split; [done|]. split; [done|].
  unfold config.__init__. by rewrite Hup.
Qed.

(** ** config.py: loading and dumping nested mappings *)

Lemma split_schema_key (k : string) :
  k ∈ config.schema_keys → ∃ sec opt, py.split "." k = [sec; opt].
Proof.
  intros Hk. unfold config.schema_keys in Hk.
  repeat (apply elem_of_cons in Hk as [->|Hk]; [by do 2 eexists|]).
  by apply elem_of_nil in Hk.
Qed.

(** One schema key of a source whose section entry is a mapping or is
    missing: the key is set to its leaf when the source has one, and the
    store is left alone otherwise. *)
Lemma load_key_nested (d : gmap string value) (k : string)
    (s : config.Config) :
  k ∈ config.schema_keys →
  config.section_ok d k = true →
  load_key (VDict d) k s =
  (Ok tt,
   match config.leaf (VDict d) k with
   | Some v => {| config._settings := <[k := v]> (config._settings s) |}
   | None => s
   end).
Proof.
  intros Hk Hsec.
  destruct (split_schema_key k Hk) as (sec & opt & Hsplit).
  apply schema_key_elem in Hk.
  unfold config.load_key, config.leaf, config.section_ok in *.
  rewrite Hsplit in *. simpl in *.
  unfold mbind, M_bind, result_bind, lift, mret, M_ret, result_ret. simpl.
  destruct (d !! sec) as [[| | | | |sd]|] eqn:Hd; try discriminate; simpl.
  - destruct (sd !! opt) as [v|] eqn:Hv; simpl.
    + by apply setitem_schema.
    + reflexivity.
  - reflexivity.
Qed.

Lemma load_keys_nested (d : gmap string value) (ks : list string)
    (s : config.Config) :
  (∀ k, k ∈ ks → k ∈ config.schema_keys) →
  forallb (config.section_ok d) ks = true →
  ∃ s', for_each ks (load_key (VDict d)) s = (Ok tt, s') ∧
    ∀ k, config._settings s' !! k =
         match (if decide (k ∈ ks) then config.leaf (VDict d) k else None) with
         | Some v => Some v
         | None => config._settings s !! k
         end.
Proof.
  revert s. induction ks as [|k0 ks IH]; intros s Hks Hok.
  - exists s. split; [reflexivity|]. intros k.
    destruct (decide (k ∈ [])) as [H|H]; [by apply elem_of_nil in H|done].
  - simpl in Hok. apply andb_true_iff in Hok as [Hok0 Hok].
    simpl. unfold mbind at 1, M_bind at 1.
    rewrite load_key_nested by (auto; apply Hks; by left).
    edestruct IH as (s' & Hrun & Hlook);
      [intros k Hk; apply Hks; by right|exact Hok|].
    exists s'. split; [exact Hrun|]. intros k. rewrite Hlook.
    destruct (decide (k ∈ ks)) as [Hin|Hin];
      destruct (decide (k ∈ k0 :: ks)) as [Hin'|Hin'];
      try (exfalso; apply Hin'; by right).
    + destruct (config.leaf (VDict d) k) eqn:Ek; [reflexivity|].
      destruct (config.leaf (VDict d) k0) eqn:E0; simpl; [|reflexivity].
      destruct (decide (k0 = k)) as [->|Hne]; [congruence|].
      by rewrite lookup_insert_ne.
    + apply elem_of_cons in Hin' as [->|Hin']; [|done].
      destruct (config.leaf (VDict d) k0); simpl; [|reflexivity].
      by rewrite lookup_insert_eq.
    + assert (k0 ≠ k) by (intros ->; apply Hin'; by left).
      destruct (config.leaf (VDict d) k0); simpl; [|reflexivity].
      by rewrite lookup_insert_ne.
Qed.

(** [load_dict] on a nested mapping never raises, and afterwards every
    schema key reads as its leaf in the source when there is one and as
    it read before otherwise. *)
Lemma load_dict_nested (src : value) (s : config.Config) :
  is_nested_mapping src = true →
  ∃ s', load_dict src s = (Ok tt, s') ∧
    ∀ k d, DEFAULT_CONFIG !! k = Some d →
      __getitem__ k s' =
      (Ok (default (default d (config._settings s !! k)) (config.leaf src k)),
       s').
Proof.
  intros Hsrc. destruct src as [| | | | |m]; [discriminate Hsrc..|].
  unfold config.is_nested_mapping in Hsrc. unfold config.load_dict.
  rewrite sorted_defaults_eq in Hsrc |- *.
  destruct (load_keys_nested m config.schema_keys s) as (s' & Hrun & Hlook);
    [auto|exact Hsrc|].
  exists s'. split; [exact Hrun|]. intros k d Hd.
  rewrite (getitem_schema k d) by exact Hd. rewrite Hlook.
  rewrite decide_True by (apply schema_key_elem; by eexists).
  by destruct (config.leaf (VDict m) k).
Qed.

(** C1: on a fresh store, loading nested mappings [A] then [B] never
    raises; a schema key that both define reads as the value [B] gives it,
    and a key that [B] does not define reads as after [A] alone.  Loading
    [A] alone never raises either; a key [A] defines reads as [A]'s value
    and every schema key [A] does not define reads as its default. *)
Theorem later_source_wins (A B : value) :
  is_nested_mapping A = true →
  is_nested_mapping B = true →
  ∃ s1 s2,
    for_each [A] load_dict fresh = (Ok tt, s1) ∧
    for_each [A; B] load_dict fresh = (Ok tt, s2) ∧
    (∀ k va vb, k ∈ config.schema_keys →
       config.leaf A k = Some va → config.leaf B k = Some vb →
       __getitem__ k s2 = (Ok vb, s2)) ∧
    (∀ k, k ∈ config.schema_keys → config.leaf B k = None →
       (__getitem__ k s2).1 = (__getitem__ k s1).1) ∧
    (∀ k va, k ∈ config.schema_keys → config.leaf A k = Some va →
       __getitem__ k s1 = (Ok va, s1)) ∧
    (∀ k d, DEFAULT_CONFIG !! k = Some d → config.leaf A k = None →
       __getitem__ k s1 = (Ok d, s1)).
Proof.
  intros HA HB.
  destruct (load_dict_nested A fresh HA) as (s1 & Hrun1 & Hget1).
  destruct (load_dict_nested B s1 HB) as (s2 & Hrun2 & Hget2).
  exists s1, s2. simpl. unfold mbind, M_bind, mret, M_ret.
  rewrite Hrun1, Hrun2. repeat split.
  - intros k va vb [d Hd]%schema_key_elem Hva Hvb.
    rewrite (Hget2 k d Hd), Hvb. reflexivity.
  - intros k [d Hd]%schema_key_elem Hnone.
    rewrite (Hget2 k d Hd), Hnone. simpl.
    rewrite (Hget1 k d Hd). simpl.
    pose proof (Hget1 k d Hd) as H1.
    rewrite (getitem_schema k d) in H1 by exact Hd.
    by injection H1 as ->.
  - intros k va [d Hd]%schema_key_elem Hva.
    rewrite (Hget1 k d Hd), Hva. reflexivity.
  - intros k d Hd Hnone.
    rewrite (Hget1 k d Hd), Hnone. simpl. by rewrite lookup_empty.
Qed.

Lemma nested_of_leaf (get : string → value) (k : string) :
  k ∈ config.schema_keys → config.leaf (config.nested_of get) k = Some (get k).
Proof.
  intros Hk. unfold config.schema_keys in Hk.
  repeat (apply elem_of_cons in Hk as [->|Hk]; [vm_compute; reflexivity|]).
  by apply elem_of_nil in Hk.
Qed.

Lemma nested_of_nested (get : string → value) :
  is_nested_mapping (config.nested_of get) = true.
Proof. vm_compute. reflexivity. Qed.

(** [dump_dict] never raises and leaves the store alone; its result holds,
    at every schema key, what the key reads as in the store. *)
Lemma dump_dict_eq (s : config.Config) :
  dump_dict s = (Ok (config.nested_of (config.read SSL_PROTOCOLS s)), s).
Proof. destruct s as [m]. vm_compute. reflexivity. Qed.

(** C5: [dump_dict] never raises, loading its result into a fresh store
    never raises, and every key then reads in the new store as it reads in
    the dumped one (a key outside the schema raises the same [KeyError] in
    both). *)
Theorem dump_load_round_trip (s : config.Config) :
  ∃ dump s',
    dump_dict s = (Ok dump, s) ∧
    load_dict dump fresh = (Ok tt, s') ∧
    ∀ k, (__getitem__ k s').1 = (__getitem__ k s).1.
Proof.
  destruct (load_dict_nested _ fresh
              (nested_of_nested (config.read SSL_PROTOCOLS s)))
    as (s' & Hload & Hget).
  exists (config.nested_of (config.read SSL_PROTOCOLS s)), s'.
  split; [apply dump_dict_eq|]. split; [exact Hload|].
  intros k. destruct (DEFAULT_CONFIG !! k) as [dk|] eqn:Hdk.
  - rewrite (Hget k dk Hdk).
    rewrite nested_of_leaf by (apply schema_key_elem; by eexists).
    unfold config.read. by rewrite (getitem_schema k dk).
  - by rewrite !getitem_unknown.
Qed.

Lemma for_each_skip {S A} (l : list A) (body : A → M S unit) (s : S) :
  (∀ x, x ∈ l → body x s = (Ok tt, s)) → for_each l body s = (Ok tt, s).
Proof.
  induction l as [|x l IH]; intros H; [reflexivity|].
  simpl. unfold mbind, M_bind. rewrite H by by left.
  apply IH. intros y Hy. apply H. by right.
Qed.

(** An empty source changes nothing. *)
Lemma load_dict_empty (s : config.Config) : load_dict (VDict ∅) s = (Ok tt, s).
Proof.
  unfold config.load_dict. rewrite sorted_defaults_eq.
  apply for_each_skip. intros k Hk.
  rewrite load_key_nested; [|exact Hk|unfold config.section_ok; by rewrite lookup_empty].
  destruct (split_schema_key k Hk) as (sec & opt & Hsplit).
  unfold config.leaf. rewrite Hsplit. simpl. by rewrite lookup_empty.
Qed.

(** ** config.py: configuration files *)

Section files.

Variable DEFAULT_CONF_SYS DEFAULT_CONF_USR : string.
Variable expanduser : string → string.
Variable fs : string → config.file.
Variable yaml_load : string → result value.

#[local] Abbreviation read_config := (config.read_config fs yaml_load).
#[local] Abbreviation load_path := (config.load_path SSL_PROTOCOLS fs yaml_load).
#[local] Abbreviation get_config :=
  (config.get_config SSL_PROTOCOLS DEFAULT_CONF_SYS DEFAULT_CONF_USR
     expanduser fs yaml_load).

Lemma read_config_missing (path : string) :
  fs path = config.NoFile → read_config path = Ok (VDict ∅).
Proof.
  intros H. unfold config.read_config, config.isfile. rewrite H.
  by rewrite andb_false_r.
Qed.

Lemma read_config_non_mapping (path content : string) (v : value) :
  fs path = config.File content → yaml_load content = Ok v →
  (∀ d, v ≠ VDict d) → read_config path = Ok (VDict ∅).
Proof.
  intros Hf Hy Hv. unfold config.read_config, config.isfile, config.open.
  rewrite Hf. destruct (py.truthy path); simpl; [|reflexivity].
  rewrite Hy. simpl. destruct v; try reflexivity. by destruct (Hv d).
Qed.

Lemma read_config_unparseable (path content : string) (e : exn) :
  py.truthy path = true → fs path = config.File content →
  yaml_load content = Raise e → read_config path = Raise e.
Proof.
  intros Hp Hf Hy. unfold config.read_config, config.isfile, config.open.
  rewrite Hp, Hf. simpl. by rewrite Hy.
Qed.

Lemma load_path_empty (path : string) (s : config.Config) :
  read_config path = Ok (VDict ∅) → load_path path s = (Ok tt, s).
Proof.
  intros H. unfold config.load_path. destruct (config.isfile fs path); [|reflexivity].
  rewrite H. unfold mbind, M_bind, lift. apply load_dict_empty.
Qed.

Lemma for_each_skip_one {S A} (l1 l2 : list A) (x : A)
    (body : A → M S unit) :
  (∀ s, body x s = (Ok tt, s)) →
  ∀ s, for_each (l1 ++ x :: l2) body s = for_each (l1 ++ l2) body s.
Proof.
  intros Hx s. rewrite !for_each_app.
  destruct (for_each l1 body s) as [[[]|e] s1]; [|reflexivity].
  simpl. unfold mbind, M_bind. by rewrite Hx.
Qed.

(** C3, as the code has it: a configuration file that is missing, or that
    parses to something other than a mapping, reads as the empty mapping
    without raising, and the store is the one obtained with that source
    absent; a file the parser rejects is not recovered from: the parser's
    exception leaves [read_config] and the load of that file. *)
Theorem missing_or_non_mapping_file_is_empty_source (path : string) :
  (fs path = config.NoFile ∨
   ∃ content v, fs path = config.File content ∧ yaml_load content = Ok v ∧
                ∀ d, v ≠ VDict d) →
  read_config path = Ok (VDict ∅) ∧
  (∀ before after s,
     for_each (before ++ path :: after) load_path s =
     for_each (before ++ after) load_path s) ∧
  (∀ ignore_sys ignore_user custom,
     expanduser custom = path →
     get_config ignore_sys ignore_user (Some custom) =
     get_config ignore_sys ignore_user None) ∧
  (∀ path' content e s,
     py.truthy path' = true → fs path' = config.File content →
     yaml_load content = Raise e →
     read_config path' = Raise e ∧ load_path path' s = (Raise e, s)).
Proof.
  intros H.
  assert (Hread : read_config path = Ok (VDict ∅)).
  { destruct H as [H|(content & v & Hf & Hy & Hv)];
      eauto using read_config_missing, read_config_non_mapping. }
  assert (Hskip : ∀ before after s,
     for_each (before ++ path :: after) load_path s =
     for_each (before ++ after) load_path s).
  { intros before after. apply for_each_skip_one.
    intros s. by apply load_path_empty. }
  split; [exact Hread|]. split; [exact Hskip|]. split.
  - intros ignore_sys ignore_user custom <-.
    unfold config.get_config, config.config_paths.
    simpl. rewrite !app_assoc, Hskip. by rewrite app_nil_r.
  - intros path' content e s Hp Hf Hy.
    pose proof (read_config_unparseable path' content e Hp Hf Hy) as Hr.
    split; [exact Hr|]. unfold config.load_path, config.isfile.
    rewrite Hf, Hr. reflexivity.
Qed.

End files.

End config_facts.

(** ** config.py: credentials *)

Section creds.

Variable fs : string → config.file.
Variable getpass : result string.

#[local] Abbreviation get_creds := (config.get_creds fs getpass).

#[local] Abbreviation no_file_password := (config.no_file_password fs).

Ltac run_creds :=
  unfold config.get_creds, config.try_except, config.set_password,
    config.call_getpass, config.open, mbind, M_bind, mret, M_ret,
    result_bind, result_ret, get_state, put_state, raise, lift; simpl.

Lemma get_creds_file_password (a : config.Namespace) (n : nat)
    (path content : string) :
  config.password_file a = Some path → py.truthy path = true →
  fs path = config.File content →
  py.truthy (py.strip (py.readline content)) = true →
  get_creds {| config.args := a; config.prompts := n |} =
  (Ok (Some {| config.cred_username := config.username a;
               config.cred_password := Some (py.strip (py.readline content)) |}),
   {| config.args := config.with_password a (py.strip (py.readline content));
      config.prompts := n |}).
Proof.
  intros Hpf Hp Hf Hpw. run_creds. rewrite Hpf. simpl. rewrite Hp, Hf.
  simpl. rewrite Hpw. simpl. rewrite Hpw. simpl.
  rewrite andb_false_r. simpl. rewrite ?Hpw. by rewrite orb_true_r.
Qed.

Lemma get_creds_file_unreadable (a : config.Namespace) (n : nat)
    (path : string) :
  config.password_file a = Some path → py.truthy path = true →
  (∀ content, fs path ≠ config.File content) →
  ∃ msg, get_creds {| config.args := a; config.prompts := n |} =
    (Raise (SystemExit (ExitMsg ("Unable to open password file: " ++ msg))),
     {| config.args := a; config.prompts := n |}).
Proof.
  intros Hpf Hp Hf. run_creds. rewrite Hpf. simpl. rewrite Hp.
  destruct (fs path) as [|err|content] eqn:E; simpl.
  - by eexists.
  - by eexists.
  - by destruct (Hf content).
Qed.

Lemma get_creds_prompt (a : config.Namespace) (n : nat) :
  no_file_password a →
  py.otruthy (config.username a) = true →
  py.otruthy (config.password a) = false →
  match getpass with
  | Ok pw =>
      get_creds {| config.args := a; config.prompts := n |} =
      (Ok (Some {| config.cred_username := config.username a;
                   config.cred_password := Some pw |}),
       {| config.args := config.with_password a pw; config.prompts := S n |})
  | Raise e =>
      ∃ arg, get_creds {| config.args := a; config.prompts := n |} =
        (Raise (SystemExit arg), {| config.args := a; config.prompts := S n |})
  end.
Proof.
  intros Hfile Hu Hp.
  assert (Hrest :
    ∀ r, r = get_creds {| config.args := a; config.prompts := n |} →
    match getpass with
    | Ok pw => r =
        (Ok (Some {| config.cred_username := config.username a;
                     config.cred_password := Some pw |}),
         {| config.args := config.with_password a pw; config.prompts := S n |})
    | Raise e => ∃ arg, r =
        (Raise (SystemExit arg), {| config.args := a; config.prompts := S n |})
    end).
  { intros r ->. run_creds.
    destruct Hfile as [Hno|(path & content & Hpf & Hf & Hblank)].
    - rewrite Hno. simpl. rewrite Hu, Hp. simpl.
      destruct getpass as [pw|[]]; simpl; rewrite ?Hu; eauto.
    - rewrite Hpf. simpl. destruct (py.truthy path); simpl.
      + rewrite Hf. simpl. rewrite Hblank. simpl. rewrite Hu, Hp. simpl.
        destruct getpass as [pw|[]]; simpl; rewrite ?Hu; eauto.
      + rewrite Hu, Hp. simpl.
        destruct getpass as [pw|[]]; simpl; rewrite ?Hu; eauto. }
  specialize (Hrest _ eq_refl). destruct getpass; exact Hrest.
Qed.

Lemma get_creds_absent_iff (st st' : config.CredState)
    (r : option config.PlainCredentials) :
  get_creds st = (Ok r, st') →
  (r = None ↔
   py.otruthy (config.username (config.args st')) = false ∧
   py.otruthy (config.password (config.args st')) = false).
Proof.
  destruct st as [a n]. run_creds.
  repeat (match goal with
          | |- context [match ?x with _ => _ end] => destruct x eqn:?; simpl
          | |- context [if ?x then _ else _] => destruct x eqn:?; simpl
          end);
    intros [= <- <-]; simpl in *;
    repeat match goal with
           | H : _ || _ = true |- _ => apply orb_true_iff in H
           | H : _ || _ = false |- _ => apply orb_false_iff in H as [? ?]
           end;
    split; try discriminate; try tauto; intros [? ?]; try congruence;
    try (destruct_or?; congruence).
Qed.

(** C4, as the code has it.  With a password file whose first line is not
    blank, that line stripped of surrounding white space becomes the
    password and the prompt is not shown; a password file that cannot be
    opened ends the run with [SystemExit] and a message.  When the file
    sets no password (none was named, or its first line is blank) and a
    user name is set without a password, the prompt is shown once and its
    answer becomes the password, and a failing prompt ends the run with
    [SystemExit].  Whenever credentials are returned, they are absent
    exactly when neither the user name nor the password is set at the
    end. *)
Theorem credential_resolution (a : config.Namespace) (n : nat) :
  let st := {| config.args := a; config.prompts := n |} in
  (∀ path content,
     config.password_file a = Some path → py.truthy path = true →
     fs path = config.File content →
     py.truthy (py.strip (py.readline content)) = true →
     get_creds st =
     (Ok (Some {| config.cred_username := config.username a;
                  config.cred_password := Some (py.strip (py.readline content)) |}),
      {| config.args := config.with_password a (py.strip (py.readline content));
         config.prompts := n |})) ∧
  (∀ path,
     config.password_file a = Some path → py.truthy path = true →
     (∀ content, fs path ≠ config.File content) →
     ∃ msg, get_creds st =
       (Raise (SystemExit (ExitMsg ("Unable to open password file: " ++ msg))),
        st)) ∧
  (no_file_password a →
   py.otruthy (config.username a) = true →
   py.otruthy (config.password a) = false →
   match getpass with
   | Ok pw =>
       get_creds st =
       (Ok (Some {| config.cred_username := config.username a;
                    config.cred_password := Some pw |}),
        {| config.args := config.with_password a pw; config.prompts := S n |})
   | Raise e =>
       ∃ arg, get_creds st =
         (Raise (SystemExit arg), {| config.args := a; config.prompts := S n |})
   end) ∧
  (∀ r st',
     get_creds st = (Ok r, st') →
     (r = None ↔
      py.otruthy (config.username (config.args st')) = false ∧
      py.otruthy (config.password (config.args st')) = false)).
Proof.
  intros st. split; [|split; [|split]].
  - intros path content. apply get_creds_file_password.
  - intros path. apply get_creds_file_unreadable.
  - apply get_creds_prompt.
  - intros r st'. apply get_creds_absent_iff.
Qed.

End creds.

Lemma bogus_key_raises_KeyError :
  ("bogus.key" ∉ config.schema_keys) ∧
  config.__getitem__ sample_protocols "bogus.key" fresh =
    (Raise (KeyError "No setting bogus.key"), fresh) ∧
  config.__setitem__ sample_protocols "bogus.key" (VInt 1) fresh =
    (Raise (KeyError "No setting bogus.key"), fresh) ∧
  config.__delitem__ sample_protocols "bogus.key" fresh =
    (Raise (KeyError "No setting bogus.key"), fresh).
Proof.
  assert (Hk : "bogus.key" ∉ config.schema_keys).
  { intros H%list_elem_of_In. simpl in H. intuition discriminate. }
  split; [exact Hk|].
  exact (unknown_key_raises_KeyError sample_protocols "bogus.key" (VInt 1) fresh Hk).
Defined.

Lemma delete_unset_key_raises :
  "conn.host" ∈ config.schema_keys ∧
  config.__delitem__ sample_protocols "conn.host" fresh =
    (Raise (KeyError "conn.host not set"), fresh).
Proof. split; [repeat constructor|vm_compute; reflexivity]. Qed.

Lemma delete_set_key_resets_to_default_witness :
  ∃ s', config.__delitem__ sample_protocols "conn.host" host_set = (Ok tt, s') ∧
        config.__getitem__ sample_protocols "conn.host" s'
        = (Ok (VStr "localhost"), s').
Proof.
  assert (Hd : config.DEFAULT_CONFIG sample_protocols !! "conn.host"
               = Some (VStr "localhost")) by (vm_compute; reflexivity).
  destruct (delete_set_key_resets_to_default sample_protocols "conn.host"
              (VStr "localhost") host_set Hd) as [Hset _].
  apply (Hset (VStr "mq")). vm_compute. reflexivity.
Defined.

Example load_scalar_section_raises :
  config.load_dict sample_protocols (VDict {[ "ssl" := VInt 5 ]}) fresh =
  (Raise TypeError, fresh).
Proof. vm_compute. reflexivity. Qed.

Example dump_then_load :
  ∃ dump s',
    config.dump_dict sample_protocols host_set = (Ok dump, host_set) ∧
    config.load_dict sample_protocols dump fresh = (Ok tt, s') ∧
    (config.__getitem__ sample_protocols "conn.host" s').1 = Ok (VStr "mq") ∧
    (config.__getitem__ sample_protocols "conn.port" s').1 = Ok (VInt 5672).
Proof. do 2 eexists. repeat split; vm_compute; reflexivity. Qed.

Lemma set_port_keeps_string :
  "conn.port" ∈ config.schema_keys ∧
  ∃ s', config.__setitem__ sample_protocols "conn.port" (VStr "abc") fresh
        = (Ok tt, s') ∧
        config.__getitem__ sample_protocols "conn.port" s'
        = (Ok (VStr "abc"), s').
Proof.
  split; [repeat constructor|].
  eexists. split; vm_compute; reflexivity.
Qed.

Lemma setitem_stores_raw_value_witness :
  ∃ s', config.__setitem__ sample_protocols "conn.port" (VStr "abc") fresh
        = (Ok tt, s') ∧
        config.__getitem__ sample_protocols "conn.port" s'
        = (Ok (VStr "abc"), s').
Proof.
  apply (setitem_stores_raw_value sample_protocols "conn.port" (VStr "abc") fresh).
  repeat constructor.
Defined.

Lemma init_rejects_unknown_key_witness :
  ∃ k, k ∈ [("conn.host", VStr "mq"); ("bogus.key", VInt 1)].*1 ∧
       (k ∉ config.schema_keys) ∧
       config.__init__ sample_protocols
         [("conn.host", VStr "mq"); ("bogus.key", VInt 1)]
       = Raise (KeyError ("No setting " ++ k)).
Proof.
  apply (init_rejects_unknown_key sample_protocols
           [("conn.host", VStr "mq"); ("bogus.key", VInt 1)]).
  exists ("bogus.key", VInt 1). split; [repeat constructor|].
  intros H%list_elem_of_In. simpl in H. intuition discriminate.
Defined.

Example load_A_then_B :
  ∃ s, for_each [sample_A; sample_B] (config.load_dict sample_protocols) fresh
       = (Ok tt, s) ∧
    (config.__getitem__ sample_protocols "conn.host" s).1 = Ok (VStr "b") ∧
    (config.__getitem__ sample_protocols "conn.port" s).1 = Ok (VInt 1) ∧
    (config.__getitem__ sample_protocols "conn.vhost" s).1 = Ok (VStr "/") ∧
    (config.__getitem__ sample_protocols "ssl.version" s).1 = Ok (VStr "tlsv1.2").
Proof. eexists. repeat split; vm_compute; reflexivity. Qed.

Lemma later_source_wins_witness :
  config.is_nested_mapping sample_protocols sample_A = true ∧
  config.is_nested_mapping sample_protocols sample_B = true ∧
  ∃ s2, for_each [sample_A; sample_B] (config.load_dict sample_protocols) fresh
        = (Ok tt, s2) ∧
        config.__getitem__ sample_protocols "conn.host" s2 = (Ok (VStr "b"), s2).
Proof.
  assert (HA : config.is_nested_mapping sample_protocols sample_A = true)
    by (vm_compute; reflexivity).
  assert (HB : config.is_nested_mapping sample_protocols sample_B = true)
    by (vm_compute; reflexivity).
  split; [exact HA|]. split; [exact HB|].
  destruct (later_source_wins sample_protocols sample_A sample_B HA HB)
    as (s1 & s2 & _ & Hrun & Hboth & _).
  exists s2. split; [exact Hrun|].
  apply (Hboth "conn.host" (VStr "a") (VStr "b")).
  - repeat constructor.
  - vm_compute; reflexivity.
  - vm_compute; reflexivity.
Defined.

Lemma unparseable_file_raises :
  config.read_config broken_fs strict_yaml "config.yml" = Raise YAMLError ∧
  config.get_config sample_protocols sample_sys sample_usr id
    broken_fs strict_yaml false false (Some "config.yml") = Raise YAMLError ∧
  config.get_config sample_protocols sample_sys sample_usr id
    broken_fs strict_yaml false false None = Ok fresh.
Proof. repeat split; vm_compute; reflexivity. Qed.

Lemma missing_file_is_empty_source_witness :
  broken_fs sample_usr = config.NoFile ∧
  config.read_config broken_fs strict_yaml sample_usr = Ok (VDict ∅).
Proof.
  assert (H : broken_fs sample_usr = config.NoFile) by reflexivity.
  split; [exact H|].
  apply (missing_or_non_mapping_file_is_empty_source sample_protocols
           sample_sys sample_usr id broken_fs strict_yaml sample_usr).
  left. exact H.
Defined.

Example password_file_topsecret :
  config.get_creds topsecret_fs typed
    {| config.args := alice_args; config.prompts := 0 |} =
  (Ok (Some {| config.cred_username := Some "alice";
               config.cred_password := Some "topsecret" |}),
   {| config.args := config.with_password alice_args "topsecret";
      config.prompts := 0 |}).
Proof. vm_compute. reflexivity. Qed.

Lemma blank_first_line_prompts :
  config.password_file alice_args = Some "pw.txt" ∧
  blank_first_fs "pw.txt" = config.File (nl ++ "secret" ++ nl) ∧
  config.get_creds blank_first_fs typed
    {| config.args := alice_args; config.prompts := 0 |} =
  (Ok (Some {| config.cred_username := Some "alice";
               config.cred_password := Some "typed" |}),
   {| config.args := config.with_password alice_args "typed";
      config.prompts := 1 |}).
Proof. repeat split; vm_compute; reflexivity. Qed.

Lemma credential_resolution_witness :
  config.get_creds topsecret_fs typed
    {| config.args := alice_args; config.prompts := 0 |} =
  (Ok (Some {| config.cred_username := Some "alice";
               config.cred_password := Some "topsecret" |}),
   {| config.args := config.with_password alice_args "topsecret";
      config.prompts := 0 |}).
Proof.
  destruct (credential_resolution topsecret_fs typed alice_args 0) as [H _].
  exact (H "pw.txt" ("topsecret" ++ nl) eq_refl eq_refl eq_refl eq_refl).
Defined.

(** ** publisher.py *)

Section publisher_facts.

Variable SSL_PROTOCOLS : gmap string Z.
Variable DEFAULT_CONF_SYS DEFAULT_CONF_USR : string.
Variable expanduser : string → string.
Variable fs : string → config.file.
Variable yaml_load : string → result value.
Variable getpass : result string.
Variable parse_args : config.Config → result config.Namespace.
Variable setup_logging : config.Namespace → result unit.
Variable repr : config.Config → string.
Variable BlockingConnection : config.ConnectionParameters → result unit.

#[local] Abbreviation run_with := (publisher.run SSL_PROTOCOLS DEFAULT_CONF_SYS
  DEFAULT_CONF_USR expanduser fs yaml_load getpass parse_args setup_logging
  repr BlockingConnection).

(** The callback that is never registered: it ends the process with
    status 1 on [Basic.Nack] and with status 0 on [Basic.Ack]. *)
Lemma confirm_callback_exit (tag : Z) (out : list event) :
  exit_status (publisher.confirm_callback (publisher.Nack tag) out).1 = 1%Z ∧
  exit_status (publisher.confirm_callback (publisher.Ack tag) out).1 = 0%Z.
Proof. split; reflexivity. Qed.

(** C8, at the point where the code departs from it: once the connection
    is open, whatever [basic_publish] returns, [main] returns and the exit
    status is 0; a false result only changes the last log line. *)
Theorem publisher_exit_status_ignores_result (conf : config.Config)
    (args : config.Namespace) (params : config.ConnectionParameters)
    (result : bool) :
  config.get_config SSL_PROTOCOLS DEFAULT_CONF_SYS DEFAULT_CONF_USR
    expanduser fs yaml_load false false (Some "config.yml") = Ok conf →
  parse_args conf = Ok args →
  setup_logging args = Ok tt →
  (config.get_conn SSL_PROTOCOLS fs getpass
     {| config.args := args; config.prompts := 0 |}).1 = Ok params →
  BlockingConnection params = Ok tt →
  run_with (Ok result) (Ok tt) =
  (0%Z,
   [Log "DEBUG" ("config: " ++ repr conf);
    Print "Sending message...";
    if result then Log "INFO" "Published message"
    else Log "ERROR" "Unable to publish message"]).
Proof.
  intros Hconf Hargs Hlog Hconn Hbroker.
  unfold publisher.run, publisher.main, run_on, lift, emit, mbind, M_bind.
  rewrite Hconf, Hargs, Hlog, Hconn, Hbroker. simpl. by destruct result.
Qed.

End publisher_facts.

Lemma failed_publish_exits_zero :
  publisher.run sample_protocols sample_sys sample_usr id no_files
    strict_yaml typed (λ _, Ok anon_args) logging_ok repr_opaque
    accepting_broker (Ok false) (Ok tt) =
  (0%Z,
   [Log "DEBUG" "config: Config({...})";
    Print "Sending message...";
    Log "ERROR" "Unable to publish message"]).
Proof.
  apply (publisher_exit_status_ignores_result sample_protocols sample_sys
           sample_usr id no_files strict_yaml typed (λ _, Ok anon_args)
           logging_ok repr_opaque accepting_broker fresh anon_args
           {| config.cp_host := "localhost"; config.cp_port := 5672;
              config.virtual_host := "/"; config.cp_ssl := true;
              config.ssl_options := Some 5%Z; config.credentials := None |}
           false); vm_compute; reflexivity.
Defined.

(** ** consumer.py *)

Section consumer_facts.

Context {J : Type}.
Variable json : option (consumer.json_module J).

(** C10: [pretty_json] never raises; a body that [json.loads] rejects (or
    any body when there is no [json] module) comes back unchanged; a body
    that parses comes back as [json.dumps(parsed, indent=4,
    sort_keys=True)]; and when the content type is not [application/json]
    the callback prints the body block built from the body as received,
    before acknowledging the delivery. *)
Theorem pretty_json_and_verbatim_bodies :
  (∀ body, ∃ s, consumer.pretty_json json body = Ok s) ∧
  (∀ body,
     (∀ j, json = Some j → ∃ e, consumer.loads j body = Raise e) →
     consumer.pretty_json json body = Ok body) ∧
  (∀ j body parsed s,
     json = Some j → consumer.loads j body = Ok parsed →
     consumer.dumps j parsed = Ok s →
     consumer.pretty_json json body = Ok s) ∧
  (∀ m h body out,
     consumer.content_type h ≠ Some "application/json" →
     consumer.consumer_callback json m h body out =
     (Ok tt,
      (out ++ [Log "DEBUG" "New message";
               Print (consumer.block_format (consumer.metadata m h) ">"
                        "Metadata" 2);
               Print (consumer.block_format body ">>" "Body" 2);
               BasicAck (consumer.delivery_tag m)])%list)).
Proof.
  split; [|split; [|split]].
  - intros body. unfold consumer.pretty_json.
    destruct json as [j|]; [|by eexists].
    destruct (_ ← consumer.loads j body; _); by eexists.
  - intros body Hbad. unfold consumer.pretty_json.
    destruct json as [j|]; [|reflexivity].
    destruct (Hbad j eq_refl) as [e He]. by rewrite He.
  - intros j body parsed s -> Hl Hd. unfold consumer.pretty_json.
    rewrite Hl. simpl. by rewrite Hd.
  - intros m h body out Hct. unfold consumer.consumer_callback.
    rewrite bool_decide_eq_false_2 by exact Hct.
    unfold emit, mbind, M_bind, mret, M_ret. simpl.
    by rewrite <- !app_assoc.
Qed.

End consumer_facts.

Example pretty_json_tiny :
  consumer.pretty_json (Some tiny_json) "{}" = Ok "{}" ∧
  consumer.pretty_json (Some tiny_json) "{oops" = Ok "{oops" ∧
  consumer.pretty_json (None : option (consumer.json_module unit)) "{}" = Ok "{}".
Proof. repeat split. Qed.

Example block_format_body :
  consumer.block_format ("a" ++ nl ++ "b") ">>" "Body" 2 =
  "  Body" ++ nl ++ "   >> a" ++ nl ++ "   >> b" ++ nl.
Proof. reflexivity. Qed.

Lemma pretty_json_and_verbatim_bodies_witness :
  consumer.pretty_json (Some tiny_json) "{oops" = Ok "{oops" ∧
  consumer.pretty_json (Some tiny_json) "{}" = Ok "{}" ∧
  (consumer.consumer_callback (Some tiny_json) sample_method text_header
     "{}" []).2 !! 2%nat =
  Some (Print (consumer.block_format "{}" ">>" "Body" 2)).
Proof.
  destruct (pretty_json_and_verbatim_bodies (Some tiny_json))
    as (_ & Hbad & Hgood & Hverb).
  split; [|split].
  - apply Hbad. intros j [= <-]. by eexists.
  - apply (Hgood tiny_json "{}" tt "{}"); reflexivity.
  - rewrite (Hverb sample_method text_header "{}" []); [reflexivity|].
    discriminate.
Defined.

(** * Further properties of config.py *)

Section config_more.

Variable SSL_PROTOCOLS : gmap string Z.

#[local] Abbreviation DEFAULT_CONFIG := (config.DEFAULT_CONFIG SSL_PROTOCOLS).
#[local] Abbreviation __getitem__ := (config.__getitem__ SSL_PROTOCOLS).
#[local] Abbreviation __setitem__ := (config.__setitem__ SSL_PROTOCOLS).
#[local] Abbreviation __delitem__ := (config.__delitem__ SSL_PROTOCOLS).
#[local] Abbreviation __len__ := (config.__len__ SSL_PROTOCOLS).
#[local] Abbreviation __iter__ := (config.__iter__ SSL_PROTOCOLS).
#[local] Abbreviation __init__ := (config.__init__ SSL_PROTOCOLS).
#[local] Abbreviation update := (config.update SSL_PROTOCOLS).
#[local] Abbreviation load_key := (config.load_key SSL_PROTOCOLS).
#[local] Abbreviation load_dict := (config.load_dict SSL_PROTOCOLS).
#[local] Abbreviation dump_dict := (config.dump_dict SSL_PROTOCOLS).
#[local] Abbreviation is_nested_mapping :=
  (config.is_nested_mapping SSL_PROTOCOLS).

(** ** The mapping protocol of [Config] *)

Lemma update_valid (other : list (string * value)) (s : config.Config) :
  (∀ kv, kv ∈ other → kv.1 ∈ config.schema_keys) →
  update other s =
  (Ok tt,
   {| config._settings :=
        foldl (λ m kv, <[kv.1 := kv.2]> m) (config._settings s) other |}).
Proof.
  revert s. induction other as [|[k v] other IH]; intros s Hall.
  - by destruct s.
  - unfold config.update in *. simpl. unfold mbind at 1, M_bind at 1.
    rewrite setitem_schema
      by (apply schema_key_elem; apply (Hall (k, v)); by left).
    rewrite IH; [reflexivity|]. intros kv Hkv. apply Hall. by right.
Qed.

Lemma foldl_insert_lookup (other : list (string * value))
    (m : gmap string value) (k : string) :
  NoDup other.*1 →
  foldl (λ m kv, <[kv.1 := kv.2]> m) m other !! k =
  match (list_to_map other : gmap string value) !! k with
  | Some v => Some v
  | None => m !! k
  end.
Proof.
  revert m. induction other as [|[k0 v0] other IH]; intros m Hnd; simpl.
  - by rewrite lookup_empty.
  - apply NoDup_cons in Hnd as [Hk0 Hnd]. rewrite IH by exact Hnd.
    destruct (decide (k0 = k)) as [->|Hne].
    + rewrite !lookup_insert_eq.
      by rewrite (not_elem_of_list_to_map_1 (M := gmap string) other k Hk0).
    + by rewrite !lookup_insert_ne.
Qed.

(** [Config(other)] for a mapping whose keys are all schema keys: the
    store is built, every key of [other] reads as the value [other] gives
    it and every other schema key reads as its default. *)
Theorem init_valid_mapping (other : list (string * value)) :
  NoDup other.*1 →
  (∀ kv, kv ∈ other → kv.1 ∈ config.schema_keys) →
  ∃ s, __init__ other = Ok s ∧
    ∀ k d, DEFAULT_CONFIG !! k = Some d →
      __getitem__ k s =
      (Ok (default d ((list_to_map other : gmap string value) !! k)), s).
Proof.
  intros Hnd Hall. eexists. split.
  - unfold config.__init__. by rewrite update_valid.
  - intros k d Hd. rewrite (getitem_schema _ k d) by exact Hd. simpl.
    rewrite foldl_insert_lookup by exact Hnd. rewrite lookup_empty.
    by destruct (list_to_map other !! k).
Qed.

(** Setting a schema key changes what that key reads as and nothing
    else: every other key reads (or raises) as before. *)
Theorem setitem_getitem_frame (k k' : string) (v : value)
    (s : config.Config) :
  k ∈ config.schema_keys →
  ∃ s', __setitem__ k v s = (Ok tt, s') ∧
    (__getitem__ k' s').1 =
    (if decide (k' = k) then Ok v else (__getitem__ k' s).1).
Proof.
  intros Hk. apply (schema_key_elem SSL_PROTOCOLS) in Hk. eexists. split; [by apply setitem_schema|].
  destruct (decide (k' = k)) as [->|Hne].
  - destruct Hk as [d Hd]. rewrite (getitem_schema _ k d) by exact Hd.
    simpl. by rewrite lookup_insert_eq.
  - destruct (DEFAULT_CONFIG !! k') as [d'|] eqn:Hd'.
    + rewrite !(getitem_schema _ k' d') by exact Hd'. simpl.
      by rewrite lookup_insert_ne.
    + by rewrite !getitem_unknown.
Qed.

(** Setting a schema key that was not set and deleting it again gives
    back the very store one started from. *)
Theorem set_then_delete_restores (k : string) (v : value)
    (s : config.Config) :
  k ∈ config.schema_keys →
  config._settings s !! k = None →
  ∃ s', __setitem__ k v s = (Ok tt, s') ∧ __delitem__ k s' = (Ok tt, s).
Proof.
  intros Hk Hunset. apply (schema_key_elem SSL_PROTOCOLS) in Hk. eexists. split; [by apply setitem_schema|].
  rewrite (delitem_set _ k v); [|exact Hk|simpl; by rewrite lookup_insert_eq].
  simpl. rewrite delete_insert_id by exact Hunset. by destruct s.
Qed.

(** Iteration and length: in every state [__iter__] yields the nine
    schema keys in strictly ascending order, as many as [__len__] says,
    and a key is yielded exactly when reading it does not raise. *)
Theorem iter_lists_readable_keys (s : config.Config) :
  ∃ keys,
    __iter__ s = (Ok keys, s) ∧
    __len__ s = (Ok (length keys), s) ∧
    length keys = 9 ∧
    config.ascending keys = true ∧
    ∀ k, k ∈ keys ↔ ∃ v, __getitem__ k s = (Ok v, s).
Proof.
  exists config.schema_keys. split.
  { unfold config.__iter__, mret, M_ret. by rewrite sorted_defaults_eq. }
  split; [vm_compute; reflexivity|]. split; [reflexivity|].
  split; [vm_compute; reflexivity|].
  intros k. rewrite <- (schema_key_elem SSL_PROTOCOLS). split.
  - intros [d Hd]. eexists. by apply getitem_schema.
  - intros [v Hv]. destruct (DEFAULT_CONFIG !! k) eqn:E; [by eexists|].
    rewrite getitem_unknown in Hv by exact E. discriminate.
Qed.

(** ** The closed schema as an invariant *)

Lemma for_each_invariant {S A} (P : S → Prop) (l : list A)
    (body : A → M S unit) :
  (∀ x s, P s → P (body x s).2) → ∀ s, P s → P (for_each l body s).2.
Proof.
  intros Hbody. induction l as [|x l IH]; intros s Hs; [exact Hs|].
  simpl. unfold mbind, M_bind. specialize (Hbody x s Hs).
  destruct (body x s) as [[[]|e] s1]; simpl in *; [by apply IH|exact Hbody].
Qed.

Lemma setitem_keeps_schema (k : string) (v : value) (s : config.Config) :
  config.settings_in_schema s →
  config.settings_in_schema (__setitem__ k v s).2.
Proof.
  intros Hs. destruct (DEFAULT_CONFIG !! k) as [d|] eqn:Hd.
  - rewrite setitem_schema by by eexists. simpl. intros k0 Hk0.
    destruct (decide (k = k0)) as [<-|Hne].
    + apply (schema_key_elem SSL_PROTOCOLS). by eexists.
    + apply Hs. simpl in Hk0. by rewrite lookup_insert_ne in Hk0.
  - by rewrite setitem_unknown.
Qed.

Lemma delitem_keeps_schema (k : string) (s : config.Config) :
  config.settings_in_schema s →
  config.settings_in_schema (__delitem__ k s).2.
Proof.
  intros Hs. destruct (DEFAULT_CONFIG !! k) as [d|] eqn:Hd.
  - destruct (config._settings s !! k) as [v|] eqn:Hv.
    + rewrite (delitem_set _ k v) by (by eexists || exact Hv). simpl.
      intros k0 Hk0. apply Hs. simpl in Hk0.
      destruct (decide (k = k0)) as [<-|Hne].
      * rewrite lookup_delete_eq in Hk0. by destruct Hk0.
      * by rewrite lookup_delete_ne in Hk0.
    + by rewrite delitem_unset by (by eexists || exact Hv).
  - by rewrite delitem_unknown.
Qed.

(** [load_key] leaves the store alone or ends in [__setitem__]. *)
Lemma load_key_state (src : value) (k : string) (s : config.Config) :
  (load_key src k s).2 = s ∨ ∃ v, load_key src k s = __setitem__ k v s.
Proof.
  unfold config.load_key, mbind, M_bind, lift.
  destruct (config.walk _ src) as [t|e]; [|by left].
  destruct (py.contains _ t) as [[]|e]; [|by left|by left].
  destruct (py.getitem t _) as [v|e]; [|by left].
  right. by exists v.
Qed.

Lemma update_keeps_schema (other : list (string * value))
    (s : config.Config) :
  config.settings_in_schema s →
  config.settings_in_schema (update other s).2.
Proof.
  intros Hs. unfold config.update.
  apply (for_each_invariant config.settings_in_schema); [|exact Hs].
  intros kv s0 Hs0. by apply setitem_keeps_schema.
Qed.

Lemma load_dict_keeps_schema (src : value) (s : config.Config) :
  config.settings_in_schema s →
  config.settings_in_schema (load_dict src s).2.
Proof.
  intros Hs. unfold config.load_dict.
  apply (for_each_invariant config.settings_in_schema); [|exact Hs].
  intros k s0 Hs0. destruct (load_key_state src k s0) as [->|[v ->]];
    [exact Hs0|by apply setitem_keeps_schema].
Qed.

(** No key outside the schema ever enters the store: from a store that
    holds schema keys only, [__setitem__], [__delitem__], [update] and
    [load_dict] lead to such a store again, for every argument and also
    when they raise. *)
Theorem schema_is_closed (s : config.Config) :
  config.settings_in_schema s →
  (∀ k v, config.settings_in_schema (__setitem__ k v s).2) ∧
  (∀ k, config.settings_in_schema (__delitem__ k s).2) ∧
  (∀ other, config.settings_in_schema (update other s).2) ∧
  (∀ src, config.settings_in_schema (load_dict src s).2).
Proof.
  intros Hs. repeat split.
  - intros k v. by apply setitem_keeps_schema.
  - intros k. by apply delitem_keeps_schema.
  - intros other. by apply update_keeps_schema.
  - intros src. by apply load_dict_keeps_schema.
Qed.

(** ** [load_dict]: errors *)

(** A source that is not a mapping: the first [t.get] raises
    [AttributeError] and the store is left as it was. *)
Theorem load_dict_non_mapping (src : value) (s : config.Config) :
  (∀ d, src ≠ VDict d) → load_dict src s = (Raise AttributeError, s).
Proof.
  intros Hsrc. unfold config.load_dict. rewrite sorted_defaults_eq.
  destruct src as [| | | | |d]; try reflexivity. by destruct (Hsrc d).
Qed.

Lemma load_key_outcome (d : gmap string value) (k : string)
    (s : config.Config) :
  k ∈ config.schema_keys →
  (load_key (VDict d) k s).1 =
  (if config.loadable d k then Ok tt else Raise TypeError).
Proof.
  intros Hk. destruct (split_schema_key k Hk) as (sec & opt & Hsplit).
  apply (schema_key_elem SSL_PROTOCOLS) in Hk.
  unfold config.load_key, config.loadable. rewrite Hsplit. simpl.
  unfold mbind, M_bind, result_bind, lift, mret, M_ret, result_ret. simpl.
  destruct (d !! sec) as [[| | |str|l|sd]|] eqn:Hd; simpl; try reflexivity.
  - by destruct (index 0 opt str).
  - by destruct (existsb _ l).
  - destruct (sd !! opt) as [v|] eqn:Hv; simpl; [|reflexivity].
    by rewrite setitem_schema.
Qed.

Lemma load_keys_outcome (d : gmap string value) (ks : list string)
    (s : config.Config) :
  (∀ k, k ∈ ks → k ∈ config.schema_keys) →
  (for_each ks (load_key (VDict d)) s).1 =
  (if forallb (config.loadable d) ks then Ok tt else Raise TypeError).
Proof.
  revert s. induction ks as [|k ks IH]; intros s Hks; [reflexivity|].
  simpl. unfold mbind, M_bind.
  pose proof (load_key_outcome d k s (Hks k ltac:(by left))) as Hk.
  destruct (load_key (VDict d) k s) as [[[]|e] s1]; simpl in Hk.
  - destruct (config.loadable d k); [|discriminate]. simpl.
    apply IH. intros k' Hk'. apply Hks. by right.
  - destruct (config.loadable d k); [discriminate|]. simpl. exact Hk.
Qed.

(** A source that is a mapping: [load_dict] returns when the entry for
    the section of every schema key is missing, is a mapping, or is a
    string or list in which the option name is not found, and raises
    [TypeError] otherwise; it raises nothing else. *)
Theorem load_dict_mapping_outcome (d : gmap string value)
    (s : config.Config) :
  (load_dict (VDict d) s).1 =
  (if forallb (config.loadable d) config.schema_keys then Ok tt
   else Raise TypeError).
Proof.
  unfold config.load_dict. rewrite sorted_defaults_eq.
  by apply load_keys_outcome.
Qed.

(** ** [load_dict]: nested mappings *)

Lemma load_dict_nested_lookup (src : value) (s : config.Config) :
  is_nested_mapping src = true →
  ∃ s', load_dict src s = (Ok tt, s') ∧
    ∀ k, config._settings s' !! k =
         match (if decide (k ∈ config.schema_keys) then config.leaf src k
                else None) with
         | Some v => Some v
         | None => config._settings s !! k
         end.
Proof.
  intros Hsrc. destruct src as [| | | | |m]; [discriminate Hsrc..|].
  unfold config.is_nested_mapping in Hsrc. unfold config.load_dict.
  rewrite sorted_defaults_eq in Hsrc |- *.
  by apply load_keys_nested.
Qed.

Lemma Config_eq (s1 s2 : config.Config) :
  (∀ k, config._settings s1 !! k = config._settings s2 !! k) → s1 = s2.
Proof. destruct s1, s2. simpl. intros H. f_equal. by apply map_eq. Qed.

(** Only the leaves at schema keys count: two nested mappings with the
    same leaf at every schema key load into the same store, whatever else
    they hold. *)
Theorem load_dict_reads_schema_leaves_only (A B : value)
    (s : config.Config) :
  is_nested_mapping A = true →
  is_nested_mapping B = true →
  (∀ k, k ∈ config.schema_keys → config.leaf A k = config.leaf B k) →
  load_dict A s = load_dict B s.
Proof.
  intros HA HB Hleaf.
  destruct (load_dict_nested_lookup A s HA) as (sA & -> & HlookA).
  destruct (load_dict_nested_lookup B s HB) as (sB & -> & HlookB).
  f_equal. apply Config_eq. intros k. rewrite HlookA, HlookB.
  destruct (decide (k ∈ config.schema_keys)) as [Hk|Hk]; [|reflexivity].
  by rewrite Hleaf.
Qed.

(** Loading the same nested mapping a second time changes nothing. *)
Theorem load_dict_idempotent (src : value) (s : config.Config) :
  is_nested_mapping src = true →
  ∃ s', load_dict src s = (Ok tt, s') ∧ load_dict src s' = (Ok tt, s').
Proof.
  intros Hsrc.
  destruct (load_dict_nested_lookup src s Hsrc) as (s1 & Hrun1 & Hlook1).
  destruct (load_dict_nested_lookup src s1 Hsrc) as (s2 & Hrun2 & Hlook2).
  exists s1. split; [exact Hrun1|]. rewrite Hrun2. f_equal.
  apply Config_eq. intros k. rewrite Hlook2, Hlook1.
  by destruct (if decide (k ∈ config.schema_keys) then config.leaf src k
               else None).
Qed.

(** ** [dump_dict] as a snapshot *)

(** [dump_dict] leaves the store alone and returns a mapping with the
    sections [auth], [conn], [logging] and [ssl] that holds, at every
    schema key, what the key reads as; loading it into any store, fresh or
    not, makes every key read there as in the dumped store. *)
Theorem dump_dict_is_snapshot (s s0 : config.Config) :
  ∃ d,
    dump_dict s = (Ok (VDict d), s) ∧
    dom d = ({["auth"; "conn"; "logging"; "ssl"]} : gset string) ∧
    (∀ k v, __getitem__ k s = (Ok v, s) → config.leaf (VDict d) k = Some v) ∧
    ∃ s', load_dict (VDict d) s0 = (Ok tt, s') ∧
          ∀ k, (__getitem__ k s').1 = (__getitem__ k s).1.
Proof.
  pose proof (dump_dict_eq SSL_PROTOCOLS s) as Hdump.
  unfold config.nested_of in Hdump.
  eexists. split; [exact Hdump|].
  split. { rewrite !dom_insert_L, dom_singleton_L. reflexivity. }
  fold (config.nested_of (config.read SSL_PROTOCOLS s)).
  split.
  - intros k v Hv. destruct (DEFAULT_CONFIG !! k) as [dk|] eqn:Hdk.
    + rewrite nested_of_leaf by (apply (schema_key_elem SSL_PROTOCOLS); by eexists).
      unfold config.read. by rewrite Hv.
    + rewrite getitem_unknown in Hv by exact Hdk. discriminate.
  - destruct (load_dict_nested SSL_PROTOCOLS _ s0
                (nested_of_nested SSL_PROTOCOLS (config.read SSL_PROTOCOLS s)))
      as (s' & Hload & Hget).
    exists s'. split; [exact Hload|]. intros k.
    destruct (DEFAULT_CONFIG !! k) as [dk|] eqn:Hdk.
    + rewrite (Hget k dk Hdk).
      rewrite nested_of_leaf by (apply (schema_key_elem SSL_PROTOCOLS); by eexists).
      unfold config.read. by rewrite (getitem_schema _ k dk).
    + by rewrite !getitem_unknown.
Qed.

End config_more.

(** ** Configuration files, layer by layer *)

Section files_more.

Variable SSL_PROTOCOLS : gmap string Z.
Variable DEFAULT_CONF_SYS DEFAULT_CONF_USR : string.
Variable expanduser : string → string.
Variable fs : string → config.file.
Variable yaml_load : string → result value.

#[local] Abbreviation DEFAULT_CONFIG := (config.DEFAULT_CONFIG SSL_PROTOCOLS).
#[local] Abbreviation __getitem__ := (config.__getitem__ SSL_PROTOCOLS).
#[local] Abbreviation load_dict := (config.load_dict SSL_PROTOCOLS).
#[local] Abbreviation is_nested_mapping :=
  (config.is_nested_mapping SSL_PROTOCOLS).
#[local] Abbreviation read_config := (config.read_config fs yaml_load).
#[local] Abbreviation layer := (config.layer fs yaml_load).
#[local] Abbreviation load_path := (config.load_path SSL_PROTOCOLS fs yaml_load).
#[local] Abbreviation get_config :=
  (config.get_config SSL_PROTOCOLS DEFAULT_CONF_SYS DEFAULT_CONF_USR
     expanduser fs yaml_load).

Lemma load_path_layer (path : string) (src : value) (s : config.Config) :
  layer path = Ok src → load_path path s = load_dict src s.
Proof.
  unfold config.layer, config.load_path. destruct (config.isfile fs path).
  - intros ->. reflexivity.
  - intros [= <-]. by rewrite load_dict_empty.
Qed.

(** The three layers in order: when the system file, the user file and
    the named file each are missing or hold a nested mapping, [get_config]
    returns a store in which every schema key reads as the named file gives
    it, else as the user file gives it, else as the system file gives it,
    else as its default. *)
Theorem get_config_precedence (custom : string) (A B C : value) :
  layer DEFAULT_CONF_SYS = Ok A → is_nested_mapping A = true →
  layer DEFAULT_CONF_USR = Ok B → is_nested_mapping B = true →
  layer (expanduser custom) = Ok C → is_nested_mapping C = true →
  ∃ s, get_config false false (Some custom) = Ok s ∧
    ∀ k d, DEFAULT_CONFIG !! k = Some d →
      __getitem__ k s =
      (Ok (default (default (default d (config.leaf A k)) (config.leaf B k))
             (config.leaf C k)), s).
Proof.
  intros HA HnA HB HnB HC HnC.
  destruct (load_dict_nested SSL_PROTOCOLS A fresh HnA) as (s1 & Hr1 & Hg1).
  destruct (load_dict_nested SSL_PROTOCOLS B s1 HnB) as (s2 & Hr2 & Hg2).
  destruct (load_dict_nested SSL_PROTOCOLS C s2 HnC) as (s3 & Hr3 & Hg3).
  exists s3. split.
  - unfold config.get_config, config.config_paths. simpl.
    unfold mbind, M_bind, mret, M_ret.
    rewrite (load_path_layer _ A) by exact HA. fold fresh. rewrite Hr1.
    rewrite (load_path_layer _ B) by exact HB. rewrite Hr2.
    rewrite (load_path_layer _ C) by exact HC. by rewrite Hr3.
  - intros k d Hd. rewrite (Hg3 k d Hd). do 3 f_equal.
    pose proof (Hg2 k d Hd) as H2.
    rewrite (getitem_schema _ k d) in H2 by exact Hd.
    injection H2 as ->. f_equal.
    pose proof (Hg1 k d Hd) as H1.
    rewrite (getitem_schema _ k d) in H1 by exact Hd.
    injection H1 as ->. simpl. by rewrite lookup_empty.
Qed.

(** With none of the files it looks at present, [get_config] returns the
    store [Config()] builds, whatever the flags. *)
Theorem get_config_no_files (ignore_sys ignore_user : bool)
    (custom : option string) :
  (∀ path,
     path ∈ config.config_paths DEFAULT_CONF_SYS DEFAULT_CONF_USR expanduser
              ignore_sys ignore_user custom →
     fs path = config.NoFile) →
  get_config ignore_sys ignore_user custom = Ok fresh.
Proof.
  intros Hmissing. unfold config.get_config. simpl.
  fold fresh. rewrite for_each_skip; [reflexivity|].
  intros path Hpath. unfold config.load_path, config.isfile.
  by rewrite (Hmissing path Hpath).
Qed.

(** A configuration file that is there but cannot be opened is not
    skipped: [read_config] raises the [IOError] of [open], and so does
    [get_config] when it gets to that file. *)
Theorem get_config_unreadable_file (custom err : string) :
  py.truthy (expanduser custom) = true →
  fs (expanduser custom) = config.Unreadable err →
  read_config (expanduser custom) = Raise (IOError err) ∧
  get_config true true (Some custom) = Raise (IOError err).
Proof.
  intros Hp Hf.
  assert (Hr : read_config (expanduser custom) = Raise (IOError err)).
  { unfold config.read_config, config.isfile, config.open.
    by rewrite Hp, Hf. }
  split; [exact Hr|].
  unfold config.get_config, config.config_paths. simpl.
  unfold mbind, M_bind, config.load_path, config.isfile, lift.
  by rewrite Hf, Hr.
Qed.

End files_more.

(** ** Credentials and connection parameters *)

Lemma readline_nl_only_last (s : string) :
  config.nl_only_last (py.readline s) = true.
Proof.
  induction s as [|c s IH]; [reflexivity|]. simpl.
  destruct (Ascii.eqb c "010") eqn:Hc; [reflexivity|].
  simpl. rewrite Hc. simpl.
  destruct (py.readline s); [reflexivity|exact IH].
Qed.

Lemma lstrip_nl_only_last (s : string) :
  config.nl_only_last s = true → config.nl_only_last (py.lstrip s) = true.
Proof.
  induction s as [|c s IH]; [done|]. intros H. simpl.
  destruct (py.isspace c); [|exact H]. apply IH.
  simpl in H. destruct s; [reflexivity|].
  by apply andb_true_iff in H as [_ H].
Qed.

Lemma rstrip_no_newline (s : string) :
  config.nl_only_last s = true → config.has_char "010" (py.rstrip s) = false.
Proof.
  induction s as [|c s IH]; [done|]. intros H. simpl.
  destruct s as [|c' s'].
  - simpl. destruct (py.isspace c) eqn:Hsp; [reflexivity|]. simpl.
    destruct (Ascii.eqb c "010") eqn:Hc; [|reflexivity].
    apply Ascii.eqb_eq in Hc. subst c. discriminate Hsp.
  - simpl in H. apply andb_true_iff in H as [Hc H].
    specialize (IH H). apply negb_true_iff in Hc.
    destruct (py.rstrip (String c' s')) as [|c'' r] eqn:Hr.
    + destruct (py.isspace c); [reflexivity|]. simpl. by rewrite Hc.
    + simpl. rewrite Hc. exact IH.
Qed.

Lemma strip_readline_no_newline (content : string) :
  config.has_char "010" (py.strip (py.readline content)) = false.
Proof.
  unfold py.strip. apply rstrip_no_newline, lstrip_nl_only_last,
    readline_nl_only_last.
Qed.

Lemma insert_sorted_elem (x y : string) (l : list string) :
  x ∈ py.insert_sorted y l ↔ x = y ∨ x ∈ l.
Proof.
  induction l as [|z l IH]; simpl.
  - rewrite list_elem_of_singleton, elem_of_nil. tauto.
  - destruct (String.leb y z).
    + by rewrite elem_of_cons.
    + rewrite !elem_of_cons, IH. tauto.
Qed.

Lemma sorted_elem (x : string) (l : list string) : x ∈ py.sorted l ↔ x ∈ l.
Proof.
  unfold py.sorted. induction l as [|y l IH]; simpl; [done|].
  rewrite insert_sorted_elem, IH, elem_of_cons. tauto.
Qed.

Lemma List_last_elem (l : list string) (d : string) :
  l ≠ [] → List.last l d ∈ l.
Proof.
  induction l as [|x l IH]; [done|]. intros _. simpl.
  destruct l as [|y l]; [by left|]. right. by apply IH.
Qed.

Lemma insert_sorted_StronglySorted (x : string) (l : list string) :
  StronglySorted String.le l → StronglySorted String.le (py.insert_sorted x l).
Proof.
  induction l as [|y l IH]; intros Hl; simpl.
  - by repeat constructor.
  - apply StronglySorted_inv in Hl as [Hl Hy].
    destruct (String.leb x y) eqn:Hxy.
    + constructor; [by constructor|]. constructor.
      * unfold String.le. by rewrite Hxy.
      * apply Forall_forall. intros z Hz. rewrite Forall_forall in Hy.
        trans y; [unfold String.le; by rewrite Hxy|by apply Hy].
    + constructor; [by apply IH|]. apply Forall_forall. intros z Hz.
      apply insert_sorted_elem in Hz as [->|Hz].
      * destruct (total String.le x y) as [H|H]; [|exact H].
        unfold String.le in H. by rewrite Hxy in H.
      * rewrite Forall_forall in Hy. by apply Hy.
Qed.

Lemma sorted_StronglySorted (l : list string) :
  StronglySorted String.le (py.sorted l).
Proof.
  unfold py.sorted. induction l as [|x l IH]; simpl; [constructor|].
  by apply insert_sorted_StronglySorted.
Qed.

Lemma List_last_greatest (l : list string) (d x : string) :
  StronglySorted String.le l → x ∈ l → String.le x (List.last l d).
Proof.
  induction l as [|y l IH]; intros Hl Hx; [by apply elem_of_nil in Hx|].
  apply StronglySorted_inv in Hl as [Hl Hy].
  destruct l as [|z l].
  - apply list_elem_of_singleton in Hx as ->. simpl. reflexivity.
  - change (List.last (y :: z :: l) d) with (List.last (z :: l) d).
    apply elem_of_cons in Hx as [->|Hx]; [|by apply IH].
    rewrite Forall_forall in Hy. apply Hy.
    apply List_last_elem. discriminate.
Qed.

Section creds_more.

Variable SSL_PROTOCOLS : gmap string Z.
Variable fs : string → config.file.
Variable getpass : result string.

#[local] Abbreviation get_creds := (config.get_creds fs getpass).
#[local] Abbreviation get_conn := (config.get_conn SSL_PROTOCOLS fs getpass).

Ltac run_creds' :=
  unfold config.get_creds, config.try_except, config.set_password,
    config.call_getpass, config.open, mbind, M_bind, mret, M_ret,
    result_bind, result_ret, get_state, put_state, raise, lift; simpl.

(** Without a password file, and unless a user name comes without a
    password, [get_creds] asks nothing and changes nothing: it returns the
    pair of user name and password, or [None] when both are missing. *)
Theorem get_creds_without_prompt (a : config.Namespace) (n : nat) :
  py.otruthy (config.password_file a) = false →
  py.otruthy (config.username a) = false ∨
  py.otruthy (config.password a) = true →
  get_creds {| config.args := a; config.prompts := n |} =
  (Ok (if py.otruthy (config.username a) || py.otruthy (config.password a)
       then Some {| config.cred_username := config.username a;
                    config.cred_password := config.password a |}
       else None),
   {| config.args := a; config.prompts := n |}).
Proof.
  intros Hpf Hup. run_creds'. rewrite Hpf. simpl.
  destruct Hup as [Hu|Hp].
  - do 2 (rewrite ?Hu; simpl). by destruct (py.otruthy (config.password a)).
  - do 2 (rewrite ?Hp, ?andb_false_r, ?orb_true_r; simpl). reflexivity.
Qed.

Ltac creds_cases :=
  repeat (simpl;
          match goal with
          | |- context [fs ?p] => destruct (fs p) eqn:?
          | |- context [py.truthy ?x] => destruct (py.truthy x) eqn:?
          | |- context [py.otruthy ?x] => destruct (py.otruthy x) eqn:?
          | |- context [match getpass with _ => _ end] =>
              destruct getpass as [?|[]] eqn:?
          end);
  simpl.

Lemma get_creds_keeps_fields (st : config.CredState) :
  let a := config.args st in
  let a' := config.args (get_creds st).2 in
  (config.host a', config.port a', config.vhost a', config.ssl a',
   config.ssl_version a', config.username a', config.password_file a',
   config.log_level a') =
  (config.host a, config.port a, config.vhost a, config.ssl a,
   config.ssl_version a, config.username a, config.password_file a,
   config.log_level a).
Proof.
  destruct st as [[h po vh sl sv u pw pf ll] n]. run_creds'.
  creds_cases; reflexivity.
Qed.

(** Whatever it returns or raises, [get_creds] touches nothing of the
    namespace but the password, and it shows the prompt at most once, and
    only when a user name came without a password. *)
Theorem get_creds_frame (st : config.CredState) :
  let st' := (get_creds st).2 in
  let a := config.args st in
  let a' := config.args st' in
  (config.host a', config.port a', config.vhost a', config.ssl a',
   config.ssl_version a', config.username a', config.password_file a',
   config.log_level a') =
  (config.host a, config.port a, config.vhost a, config.ssl a,
   config.ssl_version a, config.username a, config.password_file a,
   config.log_level a) ∧
  (config.prompts st' = config.prompts st ∨
   config.prompts st' = S (config.prompts st) ∧
   py.otruthy (config.username a) = true ∧
   py.otruthy (config.password a) = false).
Proof.
  destruct st as [[h po vh sl sv u pw pf ll] n]. run_creds'.
  creds_cases; (split; [reflexivity|]);
    first [by left | right; by repeat split].
Qed.

(** A password taken from a password file is not empty and holds no
    newline; the prompt is not shown. *)
Theorem file_password_has_no_newline (a : config.Namespace) (n : nat)
    (path content : string) :
  config.password_file a = Some path → py.truthy path = true →
  fs path = config.File content →
  py.truthy (py.strip (py.readline content)) = true →
  ∃ pw st',
    get_creds {| config.args := a; config.prompts := n |} =
      (Ok (Some {| config.cred_username := config.username a;
                   config.cred_password := Some pw |}), st') ∧
    config.password (config.args st') = Some pw ∧
    config.prompts st' = n ∧
    pw ≠ "" ∧ config.has_char "010" pw = false.
Proof.
  intros Hpf Hp Hf Hpw. do 2 eexists. split.
  - by apply (get_creds_file_password fs getpass a n path content).
  - simpl. repeat split.
    + intros Hempty. rewrite Hempty in Hpw. discriminate.
    + apply strip_readline_no_newline.
Qed.

(** [get_conn] after [get_creds]: what [get_creds] raises passes through;
    otherwise the parameters carry host, port, virtual host and the SSL
    flag of the namespace and the credentials, with the protocol constant
    of [args.ssl_version], no SSL option when that name is empty, and
    [KeyError] when the name is not in [SSL_PROTOCOLS]. *)
Theorem get_conn_translation (st : config.CredState) :
  let a := config.args st in
  match get_creds st with
  | (Raise e, st') => get_conn st = (Raise e, st')
  | (Ok creds, st') =>
      let params opts :=
        {| config.cp_host := config.host a; config.cp_port := config.port a;
           config.virtual_host := config.vhost a;
           config.cp_ssl := config.ssl a;
           config.ssl_options := opts; config.credentials := creds |} in
      get_conn st =
      if py.truthy (config.ssl_version a) then
        match SSL_PROTOCOLS !! config.ssl_version a with
        | Some proto => (Ok (params (Some proto)), st')
        | None => (Raise (KeyError (config.ssl_version a)), st')
        end
      else (Ok (params None), st')
  end.
Proof.
  intros a. pose proof (get_creds_keeps_fields st) as Hframe. simpl in Hframe.
  unfold config.get_conn, mbind, M_bind, get_state, mret, M_ret, raise.
  cbv beta.
  destruct (get_creds st) as [[creds|e] st'] eqn:Hcreds; [|reflexivity].
  simpl in Hframe. injection Hframe as Hh Hpo Hv Hs Hsv _ _ _.
  simpl. rewrite Hh, Hpo, Hv, Hs, Hsv. fold a.
  destruct (py.truthy (config.ssl_version a)); [|reflexivity].
  by destruct (SSL_PROTOCOLS !! config.ssl_version a).
Qed.

(** The default of [ssl.version] is one of the protocol names: whenever
    the interpreter has any, [sorted(SSL_PROTOCOLS.keys())[-1]] is a key of
    [SSL_PROTOCOLS], the greatest one in string order, so the default
    never makes [get_conn] raise [KeyError]. *)
Theorem default_ssl_version_supported :
  SSL_PROTOCOLS ≠ ∅ →
  config.DEFAULT_CONFIG SSL_PROTOCOLS !! "ssl.version" =
    Some (VStr (config.ssl_version_default SSL_PROTOCOLS)) ∧
  is_Some (SSL_PROTOCOLS !! config.ssl_version_default SSL_PROTOCOLS) ∧
  ∀ k, is_Some (SSL_PROTOCOLS !! k) →
       String.leb k (config.ssl_version_default SSL_PROTOCOLS) = true.
Proof.
  intros Hne. split; [reflexivity|].
  unfold config.ssl_version_default.
  set (keys := (map_to_list SSL_PROTOCOLS).*1).
  assert (Hin : List.last (py.sorted keys) "" ∈ keys).
  { apply sorted_elem, List_last_elem. intros Hnil.
    assert (Hk : keys = []).
    { destruct keys as [|k ks] eqn:E; [reflexivity|].
      assert (k ∈ py.sorted (k :: ks)) by (apply sorted_elem; by left).
      rewrite Hnil in H. by apply elem_of_nil in H. }
    unfold keys in Hk. apply fmap_nil_inv in Hk.
    by apply map_to_list_empty_iff in Hk. }
  split.
  - unfold keys in *. apply list_elem_of_fmap in Hin as [[k v] [Hlast Hkv]].
    rewrite Hlast. apply elem_of_map_to_list in Hkv. by eexists.
  - intros k [v Hv]. apply Is_true_true.
    apply (List_last_greatest (py.sorted keys) "" k).
    + apply sorted_StronglySorted.
    + apply sorted_elem. unfold keys. apply list_elem_of_fmap.
      exists (k, v). split; [reflexivity|]. by apply elem_of_map_to_list.
Qed.

End creds_more.

(** ** Further properties of publisher.py *)

Section publisher_more.

Variable SSL_PROTOCOLS : gmap string Z.
Variable DEFAULT_CONF_SYS DEFAULT_CONF_USR : string.
Variable expanduser : string → string.
Variable fs : string → config.file.
Variable yaml_load : string → result value.
Variable getpass : result string.
Variable parse_args : config.Config → result config.Namespace.
Variable setup_logging : config.Namespace → result unit.
Variable repr : config.Config → string.
Variable BlockingConnection : config.ConnectionParameters → result unit.
Variable basic_publish : result bool.
Variable close : result unit.

#[local] Abbreviation main := (publisher.main SSL_PROTOCOLS DEFAULT_CONF_SYS
  DEFAULT_CONF_USR expanduser fs yaml_load getpass parse_args setup_logging
  repr BlockingConnection basic_publish close).
#[local] Abbreviation run := (publisher.run SSL_PROTOCOLS DEFAULT_CONF_SYS
  DEFAULT_CONF_USR expanduser fs yaml_load getpass parse_args setup_logging
  repr BlockingConnection basic_publish close).

(** A password file that cannot be opened ends the publisher with exit
    status 1 before anything is sent: nothing is printed, and what the
    broker would answer plays no part. *)
Theorem publisher_unreadable_password_file (conf : config.Config)
    (args : config.Namespace) (path : string) :
  config.get_config SSL_PROTOCOLS DEFAULT_CONF_SYS DEFAULT_CONF_USR
    expanduser fs yaml_load false false (Some "config.yml") = Ok conf →
  parse_args conf = Ok args →
  setup_logging args = Ok tt →
  config.password_file args = Some path → py.truthy path = true →
  (∀ content, fs path ≠ config.File content) →
  run = (1%Z, [Log "DEBUG" ("config: " ++ repr conf)]).
Proof.
  intros Hconf Hargs Hlog Hpf Hp Hf.
  destruct (get_creds_file_unreadable fs getpass args 0 path Hpf Hp Hf)
    as [msg Hcreds].
  unfold publisher.run, publisher.main, run_on, lift, emit, mbind, M_bind.
  rewrite Hconf, Hargs, Hlog. simpl.
  unfold config.get_conn, mbind, M_bind. by rewrite Hcreds.
Qed.

(** The lines of a run tell what happened: [Sending message...] is
    printed only once the connection is open, [Published message] is
    logged only when [basic_publish] returned true, and [Unable to publish
    message] only when it returned false. *)
Theorem publisher_lines_reflect_outcome :
  let out := (main []).2 in
  (Print "Sending message..." ∈ out →
   ∃ params, BlockingConnection params = Ok tt) ∧
  (Log "INFO" "Published message" ∈ out → basic_publish = Ok true) ∧
  (Log "ERROR" "Unable to publish message" ∈ out → basic_publish = Ok false).
Proof.
  unfold publisher.main, run_on, lift, emit, mbind, M_bind. simpl.
  destruct (config.get_config _ _ _ _ _ _ _ _ _) as [conf|e1]; simpl;
    [|by repeat split; intros H; apply elem_of_nil in H].
  destruct (parse_args conf) as [args|e2]; simpl;
    [|by repeat split; intros H; apply elem_of_nil in H].
  destruct (setup_logging args) as [[]|e3]; simpl;
    [|by repeat split; intros H; apply elem_of_nil in H].
  destruct (config.get_conn _ _ _ _).1 as [params|e4]; simpl;
    [|by repeat split; intros H;
         apply list_elem_of_singleton in H; discriminate].
  destruct (BlockingConnection params) as [[]|e5] eqn:Hconn; simpl;
    [|by repeat split; intros H;
         apply list_elem_of_singleton in H; discriminate].
  destruct basic_publish as [[]|e6]; simpl;
    destruct close as [[]|e7]; simpl;
    (repeat split; [by exists params|..]); intros H;
    repeat (apply elem_of_cons in H as [H|H]; [discriminate H|]);
    by apply elem_of_nil in H.
Qed.

End publisher_more.

(** ** Further properties of consumer.py *)

Lemma string_app_cons (x : ascii) (a b : string) :
  String x a ++ b = String x (a ++ b).
Proof. reflexivity. Qed.

Lemma string_app_nil_l (b : string) : "" ++ b = b.
Proof. reflexivity. Qed.

Lemma string_app_assoc (a b c : string) : (a ++ b) ++ c = a ++ (b ++ c).
Proof.
  induction a as [|x a IH]; [reflexivity|].
  rewrite !string_app_cons. by rewrite IH.
Qed.

Lemma has_char_app (c : ascii) (a b : string) :
  config.has_char c (a ++ b) = config.has_char c a || config.has_char c b.
Proof.
  induction a as [|x a IH]; [reflexivity|].
  rewrite string_app_cons. simpl. by rewrite IH, orb_assoc.
Qed.

Lemma has_char_spaces (n : nat) :
  config.has_char "010" (consumer.spaces n) = false.
Proof. induction n as [|n IH]; [reflexivity|exact IH]. Qed.

Lemma split_app_sep (sep : ascii) (a b : string) :
  config.has_char sep a = false →
  py.split sep (a ++ String sep b) = a :: py.split sep b.
Proof.
  induction a as [|x a IH].
  - intros _. rewrite string_app_nil_l. simpl. by rewrite Ascii.eqb_refl.
  - rewrite string_app_cons. simpl.
    intros [Hx Ha]%orb_false_iff. rewrite Hx, IH by exact Ha. reflexivity.
Qed.

Lemma split_parts_no_sep (sep : ascii) (s w : string) :
  w ∈ py.split sep s → config.has_char sep w = false.
Proof.
  revert w. induction s as [|x s IH]; simpl; intros w Hw.
  - apply list_elem_of_singleton in Hw. by subst.
  - destruct (Ascii.eqb x sep) eqn:Hx.
    + apply elem_of_cons in Hw as [->|Hw]; [reflexivity|by apply IH].
    + destruct (py.split sep s) as [|w0 ws].
      * apply list_elem_of_singleton in Hw. subst. simpl. by rewrite Hx.
      * apply elem_of_cons in Hw as [->|Hw].
        -- simpl. rewrite Hx. apply IH. by left.
        -- apply IH. by right.
Qed.

Lemma split_concat_trailing (sep : ascii) (x : string) (l : list string) :
  Forall (λ w, config.has_char sep w = false) (x :: l) →
  py.split sep (String.concat (String sep "") (x :: l) ++ String sep "") =
  ((x :: l) ++ [""])%list.
Proof.
  revert x. induction l as [|y l IH]; intros x Hall.
  - simpl. apply Forall_cons in Hall as [Hx _]. by rewrite split_app_sep.
  - apply Forall_cons in Hall as [Hx Hall].
    change (String.concat (String sep "") (x :: y :: l))
      with (x ++ String sep "" ++ String.concat (String sep "") (y :: l)).
    rewrite string_app_assoc, string_app_cons, string_app_nil_l.
    rewrite string_app_cons.
    rewrite split_app_sep by exact Hx. by rewrite IH.
Qed.

(** [block_format] line by line: with no newline in the prefix and the
    header, the result consists of the indented header line (when there is
    a header), then one line per line of the block, each indented and
    prefixed, and it ends with a newline. *)
Theorem block_format_lines (strblock prefix header : string) (indent : nat) :
  config.has_char "010" prefix = false →
  config.has_char "010" header = false →
  py.split "010" (consumer.block_format strblock prefix header indent) =
  ((if py.truthy header then [(consumer.spaces indent ++ header)%string]
    else []) ++
   map (λ line, (consumer.spaces indent ++ " " ++ prefix ++ " " ++ line)%string)
       (py.split "010" strblock) ++
   [""])%list.
Proof.
  intros Hprefix Hheader. unfold consumer.block_format.
  assert (Hlines : Forall (λ w, config.has_char "010" w = false)
            (map (λ line, consumer.spaces indent ++ " " ++ prefix ++ " " ++ line)
               (py.split "010" strblock))).
  { apply Forall_forall. intros w [line [-> Hline]]%list_elem_of_fmap.
    rewrite !has_char_app, has_char_spaces, Hprefix.
    by rewrite (split_parts_no_sep _ _ _ Hline). }
  destruct (map _ (py.split "010" strblock)) as [|x l] eqn:Hmap.
  { apply fmap_nil_inv in Hmap. destruct strblock as [|c s']; [discriminate|].
    simpl in Hmap. repeat case_match; discriminate. }
  destruct (py.truthy header).
  - rewrite !string_app_assoc, string_app_cons, string_app_nil_l.
    rewrite <- string_app_assoc.
    rewrite split_app_sep by (by rewrite has_char_app, has_char_spaces).
    by rewrite split_concat_trailing.
  - rewrite string_app_nil_l. by rewrite split_concat_trailing.
Qed.

Section consumer_more.

Context {J : Type}.
Variable json : option (consumer.json_module J).


End consumer_more.

(** ** The further properties at sample inputs *)

Lemma init_valid_mapping_witness :
  ∃ s, config.__init__ sample_protocols
         [("conn.host", VStr "mq"); ("conn.port", VInt 1)] = Ok s ∧
       config.__getitem__ sample_protocols "conn.host" s = (Ok (VStr "mq"), s).
Proof.
  destruct (init_valid_mapping sample_protocols
              [("conn.host", VStr "mq"); ("conn.port", VInt 1)])
    as (s & Hinit & Hget).
  - repeat constructor; intros H%list_elem_of_In; simpl in H;
      intuition discriminate.
  - intros kv Hkv.
    repeat (apply elem_of_cons in Hkv as [->|Hkv]; [repeat constructor|]).
    by apply elem_of_nil in Hkv.
  - exists s. split; [exact Hinit|].
    rewrite (Hget "conn.host" (VStr "localhost")); reflexivity.
Defined.

Lemma setitem_getitem_frame_witness :
  ∃ s', config.__setitem__ sample_protocols "conn.host" (VStr "mq") fresh
        = (Ok tt, s') ∧
        (config.__getitem__ sample_protocols "conn.port" s').1
        = Ok (VInt 5672).
Proof.
  destruct (setitem_getitem_frame sample_protocols "conn.host" "conn.port"
              (VStr "mq") fresh) as (s' & Hset & Hget).
  - repeat constructor.
  - exists s'. split; [exact Hset|]. rewrite Hget. reflexivity.
Defined.

Lemma set_then_delete_restores_witness :
  ∃ s', config.__setitem__ sample_protocols "conn.host" (VStr "mq") fresh
        = (Ok tt, s') ∧
        config.__delitem__ sample_protocols "conn.host" s' = (Ok tt, fresh).
Proof.
  apply (set_then_delete_restores sample_protocols "conn.host" (VStr "mq")
           fresh).
  - repeat constructor.
  - reflexivity.
Defined.

Lemma schema_is_closed_witness :
  config.settings_in_schema
    (config.load_dict sample_protocols sample_B_extra fresh).2.
Proof.
  apply (schema_is_closed sample_protocols fresh).
  intros k [v Hv]. simpl in Hv. by rewrite lookup_empty in Hv.
Defined.

Lemma load_dict_non_mapping_witness :
  config.load_dict sample_protocols (VList []) fresh
  = (Raise AttributeError, fresh).
Proof.
  apply (load_dict_non_mapping sample_protocols (VList []) fresh).
  discriminate.
Defined.

Lemma load_dict_reads_schema_leaves_only_witness :
  config.load_dict sample_protocols sample_B fresh =
  config.load_dict sample_protocols sample_B_extra fresh.
Proof.
  apply (load_dict_reads_schema_leaves_only sample_protocols sample_B
           sample_B_extra fresh).
  - vm_compute. reflexivity.
  - vm_compute. reflexivity.
  - intros k Hk. unfold config.schema_keys in Hk.
    repeat (apply elem_of_cons in Hk as [->|Hk]; [vm_compute; reflexivity|]).
    by apply elem_of_nil in Hk.
Defined.

Lemma load_dict_idempotent_witness :
  ∃ s', config.load_dict sample_protocols sample_A fresh = (Ok tt, s') ∧
        config.load_dict sample_protocols sample_A s' = (Ok tt, s').
Proof.
  apply (load_dict_idempotent sample_protocols sample_A fresh).
  vm_compute. reflexivity.
Defined.

Lemma get_config_precedence_witness :
  ∃ s, config.get_config sample_protocols sample_sys sample_usr id
         layered_fs layered_yaml false false (Some "config.yml") = Ok s ∧
       config.__getitem__ sample_protocols "conn.host" s = (Ok (VStr "b"), s).
Proof.
  destruct (get_config_precedence sample_protocols sample_sys sample_usr id
              layered_fs layered_yaml "config.yml" sample_A sample_B sample_C)
    as (s & Hconf & Hget); try (vm_compute; reflexivity).
  exists s. split; [exact Hconf|].
  rewrite (Hget "conn.host" (VStr "localhost")); reflexivity.
Defined.

Lemma get_config_no_files_witness :
  config.get_config sample_protocols sample_sys sample_usr id no_files
    strict_yaml false false (Some "config.yml") = Ok fresh.
Proof.
  apply (get_config_no_files sample_protocols sample_sys sample_usr id
           no_files strict_yaml false false (Some "config.yml")).
  reflexivity.
Defined.

Lemma get_config_unreadable_file_witness :
  config.get_config sample_protocols sample_sys sample_usr id locked_fs
    strict_yaml true true (Some "config.yml")
  = Raise (IOError "Permission denied").
Proof.
  apply (get_config_unreadable_file sample_protocols sample_sys sample_usr id
           locked_fs strict_yaml "config.yml" "Permission denied");
    reflexivity.
Defined.

Lemma get_creds_without_prompt_witness :
  config.get_creds no_files typed
    {| config.args := anon_args; config.prompts := 0 |} =
  (Ok None, {| config.args := anon_args; config.prompts := 0 |}).
Proof.
  apply (get_creds_without_prompt no_files typed anon_args 0).
  - reflexivity.
  - left. reflexivity.
Defined.

Lemma file_password_has_no_newline_witness :
  ∃ pw st',
    config.get_creds topsecret_fs typed
      {| config.args := alice_args; config.prompts := 0 |} =
      (Ok (Some {| config.cred_username := Some "alice";
                   config.cred_password := Some pw |}), st') ∧
    config.password (config.args st') = Some pw ∧
    config.prompts st' = 0 ∧
    pw ≠ "" ∧ config.has_char "010" pw = false.
Proof.
  apply (file_password_has_no_newline topsecret_fs typed alice_args 0
           "pw.txt" ("topsecret" ++ nl)); reflexivity.
Defined.

Lemma default_ssl_version_supported_witness :
  is_Some (sample_protocols !! config.ssl_version_default sample_protocols).
Proof.
  assert (Hne : sample_protocols ≠ ∅).
  { intros H. apply (f_equal (λ m : gmap string Z, m !! "tlsv1")) in H.
    vm_compute in H. discriminate H. }
  destruct (default_ssl_version_supported sample_protocols Hne) as (_ & H & _).
  exact H.
Defined.

Lemma publisher_unreadable_password_file_witness :
  publisher.run sample_protocols sample_sys sample_usr id no_files
    strict_yaml typed (λ _, Ok alice_args) logging_ok repr_opaque
    accepting_broker (Ok true) (Ok tt) =
  (1%Z, [Log "DEBUG" "config: Config({...})"]).
Proof.
  apply (publisher_unreadable_password_file sample_protocols sample_sys
           sample_usr id no_files strict_yaml typed (λ _, Ok alice_args)
           logging_ok repr_opaque accepting_broker (Ok true) (Ok tt)
           fresh alice_args "pw.txt"); try reflexivity.
  intros content. discriminate.
Defined.

Lemma block_format_lines_witness :
  py.split "010" (consumer.block_format ("a" ++ nl ++ "b") ">>" "Body" 2) =
  ["  Body"; "   >> a"; "   >> b"; ""].
Proof.
  rewrite (block_format_lines ("a" ++ nl ++ "b") ">>" "Body" 2);
    reflexivity.
Defined.

Example default_ssl_version_sample :
  config.ssl_version_default sample_protocols = "tlsv1.2".
Proof. vm_compute. reflexivity. Qed.

Example load_partly_applied_before_raising :
  config.load_dict sample_protocols
    (VDict {[ "conn" := VDict {[ "host" := VStr "a" ]}; "ssl" := VInt 5 ]})
    fresh =
  (Raise TypeError, {| config._settings := {[ "conn.host" := VStr "a" ]} |}).
Proof. vm_compute. reflexivity. Qed.

(** ** The protocol table *)

Lemma lower_char_underscore (c : ascii) :
  Ascii.eqb (pystr.lower_char c) "_" = Ascii.eqb c "_".
Proof. destruct c as [[] [] [] [] [] [] [] []]; reflexivity. Qed.

Lemma lower_char_not_upper (c : ascii) :
  pystr.isupper (pystr.lower_char c) = false.
Proof. destruct c as [[] [] [] [] [] [] [] []]; reflexivity. Qed.

Lemma lower_has_underscore (s : string) :
  config.has_char "_" (pystr.lower s) = config.has_char "_" s.
Proof.
  induction s as [|c s IH]; [reflexivity|]. simpl.
  by rewrite lower_char_underscore, IH.
Qed.

Lemma lower_no_upper (s : string) : pystr.has_upper (pystr.lower s) = false.
Proof.
  induction s as [|c s IH]; [reflexivity|]. simpl.
  by rewrite lower_char_not_upper, IH.
Qed.

Lemma replace_underscore_go (k : nat) (s : string) :
  config.has_char "_" (pystr.replace_go "_" "." k s) = false.
Proof.
  revert k. induction s as [|c s IH]; intros k; [reflexivity|].
  destruct k as [|k]; [|apply IH].
  change (pystr.replace_go "_" "." 0 (String c s))
    with (if String.prefix "_" (String c s)
          then "." ++ pystr.replace_go "_" "." 0 s
          else String c (pystr.replace_go "_" "." 0 s)).
  change (String.prefix "_" (String c s))
    with (if ascii_dec "_" c then String.prefix "" s else false).
  destruct (ascii_dec "_" c) as [<-|Hne].
  - assert (String.prefix "" s = true) as -> by (by destruct s).
    rewrite has_char_app, IH. reflexivity.
  - cbn [config.has_char]. rewrite IH, orb_false_r.
    apply Ascii.eqb_neq. congruence.
Qed.

Lemma protocol_name_clean (attr : string) :
  config.has_char "_" (config.protocol_name attr) = false ∧
  pystr.has_upper (config.protocol_name attr) = false.
Proof.
  unfold config.protocol_name. split.
  - rewrite lower_has_underscore. apply replace_underscore_go.
  - apply lower_no_upper.
Qed.

Lemma foldl_insert_keys (pairs : list (string * Z)) (m : gmap string Z)
    (k : string) :
  is_Some (foldl (λ m kv, <[config.protocol_name kv.1 := kv.2]> m) m pairs !! k) →
  is_Some (m !! k) ∨ ∃ kv, kv ∈ pairs ∧ k = config.protocol_name kv.1.
Proof.
  revert m. induction pairs as [|kv pairs IH]; intros m; simpl; [by left|].
  intros [H|[kv' [Hin ->]]]%IH.
  - destruct (decide (config.protocol_name kv.1 = k)) as [<-|Hne].
    + right. exists kv. split; [by left|reflexivity].
    + left. by rewrite lookup_insert_ne in H.
  - right. exists kv'. split; [by right|reflexivity].
Qed.

(** Every name in the protocol table comes from an attribute of [ssl]
    whose name starts with [PROTOCOL_], and it has neither an underscore
    nor an upper-case letter in it. *)
Theorem SSL_PROTOCOLS_names (ssl_attrs : list (string * Z)) (k : string) :
  is_Some (config.SSL_PROTOCOLS_of ssl_attrs !! k) →
  (∃ attr v, (attr, v) ∈ ssl_attrs ∧
             pystr.startswith "PROTOCOL_" attr = true ∧
             k = config.protocol_name attr) ∧
  config.has_char "_" k = false ∧
  pystr.has_upper k = false.
Proof.
  intros Hk. unfold config.SSL_PROTOCOLS_of in Hk.
  apply foldl_insert_keys in Hk as [[v Hv]|[[attr v] [Hin ->]]].
  { by rewrite lookup_empty in Hv. }
  apply list_elem_of_filter in Hin as [Hstart Hin]. simpl in *.
  split; [by exists attr, v|]. apply protocol_name_clean.
Qed.

Example SSL_PROTOCOLS_sample :
  config.SSL_PROTOCOLS_of sample_ssl_attrs = sample_protocols.
Proof. vm_compute. reflexivity. Qed.

Lemma SSL_PROTOCOLS_names_witness :
  config.has_char "_" "tlsv1.2" = false ∧ pystr.has_upper "tlsv1.2" = false.
Proof.
  apply (SSL_PROTOCOLS_names sample_ssl_attrs "tlsv1.2").
  vm_compute. by eexists.
Defined.

(** ** What [get_config] reads and what it builds *)


Section get_config_more.

Variable SSL_PROTOCOLS : gmap string Z.
Variable DEFAULT_CONF_SYS DEFAULT_CONF_USR : string.
Variable expanduser : string → string.
Variable yaml_load : string → result value.


(** Every store the code builds holds schema keys only: the one
    [Config(other)] returns and the one [get_config] returns. *)
Theorem built_stores_hold_schema_keys_only (fs : string → config.file)
    (s : config.Config) :
  (∃ other, config.__init__ SSL_PROTOCOLS other = Ok s) ∨
  (∃ ignore_sys ignore_user custom,
     config.get_config SSL_PROTOCOLS DEFAULT_CONF_SYS DEFAULT_CONF_USR
       expanduser fs yaml_load ignore_sys ignore_user custom = Ok s) →
  config.settings_in_schema s.
Proof.
  assert (Hfresh : config.settings_in_schema {| config._settings := ∅ |}).
  { intros k [v Hv]. simpl in Hv. by rewrite lookup_empty in Hv. }
  intros [[other Hinit]|(ignore_sys & ignore_user & custom & Hconf)].
  - unfold config.__init__ in Hinit.
    pose proof (update_keeps_schema SSL_PROTOCOLS other _ Hfresh) as Hup.
    destruct (config.update SSL_PROTOCOLS other _) as [[[]|e] s1];
      [|discriminate]. injection Hinit as <-. exact Hup.
  - unfold config.get_config in Hconf. simpl in Hconf.
    pose proof (for_each_invariant config.settings_in_schema
      (config.config_paths DEFAULT_CONF_SYS DEFAULT_CONF_USR expanduser
         ignore_sys ignore_user custom)
      (config.load_path SSL_PROTOCOLS fs yaml_load)) as Hinv.
    specialize (Hinv ltac:(
      intros path s0 Hs0; unfold config.load_path, mbind, M_bind, lift;
      destruct (config.isfile fs path); [|exact Hs0];
      destruct (config.read_config fs yaml_load path) as [src|e];
        [|exact Hs0];
      by apply load_dict_keeps_schema) _ Hfresh).
    destruct (for_each _ _ _) as [[[]|e] s1]; [|discriminate].
    injection Hconf as <-. exact Hinv.
Qed.

End get_config_more.


Lemma built_stores_hold_schema_keys_only_witness :
  config.settings_in_schema
    {| config._settings := {[ "conn.host" := VStr "mq" ]} |}.
Proof.
  apply (built_stores_hold_schema_keys_only sample_protocols sample_sys
           sample_usr id layered_yaml layered_fs).
  left. exists [("conn.host", VStr "mq")]. vm_compute. reflexivity.
Defined.

Lemma dump_dict_is_snapshot_witness :
  ∃ d, config.dump_dict sample_protocols host_set = (Ok (VDict d), host_set) ∧
       config.leaf (VDict d) "conn.host" = Some (VStr "mq").
Proof.
  destruct (dump_dict_is_snapshot sample_protocols host_set fresh)
    as (d & Hdump & _ & Hleaf & _).
  exists d. split; [exact Hdump|].
  apply Hleaf. vm_compute. reflexivity.
Defined.

Lemma publisher_lines_reflect_outcome_witness :
  Log "ERROR" "Unable to publish message" ∈
    (publisher.main sample_protocols sample_sys sample_usr id no_files
       strict_yaml typed (λ _, Ok anon_args) logging_ok repr_opaque
       accepting_broker (Ok false) (Ok tt) []).2 ∧
  (Ok false : result bool) = Ok false.
Proof.
  assert (Hin : Log "ERROR" "Unable to publish message" ∈
    (publisher.main sample_protocols sample_sys sample_usr id no_files
       strict_yaml typed (λ _, Ok anon_args) logging_ok repr_opaque
       accepting_broker (Ok false) (Ok tt) []).2).
  { vm_compute. repeat constructor. }
  split; [exact Hin|].
  by apply (publisher_lines_reflect_outcome sample_protocols sample_sys
              sample_usr id no_files strict_yaml typed (λ _, Ok anon_args)
              logging_ok repr_opaque accepting_broker (Ok false) (Ok tt)).
Defined.
